(** * Dynamic-rank views of Sacado Fad types: dimension bookkeeping

    A shallow embedding of [packages/sacado/src/Kokkos_DynRankView_Fad.hpp]:
    the rank computation and layout construction of
    [DynRankDimTraits<ViewSpecializeSacadoFad>], the rank-indexed transfer
    rules [AssignFadDimStride] and [AssignDim], the subview and view
    assignment mappings, and the dispatch of the view-to-view [deep_copy].

    Machine integers ([size_t], [unsigned]) are integers of [Z] with their
    wrap-around written out where the code computes with them. *)

From Stdlib Require Import ZArith Bool List Lia String.
From stdpp Require Import base list.
Import ListNotations.

#[local] Open Scope Z_scope.

(** ** Machine integers *)

Module SizeT.

(** [size_t] of the 64-bit targets the package is built for. *)
Definition bits : Z := 64.
Definition modulus : Z := 2 ^ bits.

Definition wrap (z : Z) : Z := z mod modulus.

(** [~size_t(0)]: every bit of a [size_t] set. *)
Definition lnot0 : Z := Z.land (Z.lnot 0) (Z.ones bits).

(** Conversion to [unsigned] (32 bits). *)
Definition to_unsigned (z : Z) : Z := z mod 2 ^ 32.

Definition mul (a b : Z) : Z := wrap (a * b).

End SizeT.

(** C++ [a != b] on integers. *)
Definition neq (a b : Z) : bool := negb (a =? b).

(** ** Layouts *)

Inductive array_layout : Set :=
| LayoutLeft
| LayoutRight
| LayoutStride.

Definition array_layout_eqb (a b : array_layout) : bool :=
  match a, b with
  | LayoutLeft, LayoutLeft | LayoutRight, LayoutRight
  | LayoutStride, LayoutStride => true
  | _, _ => false
  end.

(** A Kokkos layout object: [size_t dimension[8]], and for [LayoutStride]
    also [size_t stride[8]].  [LayoutLeft] and [LayoutRight] carry no
    stride array; theirs is left empty. *)
Record Layout : Type := mkLayout
  { layout_kind : array_layout
  ; dimension : list Z
  ; stride : list Z }.

(** Modelled from the spec: the constructors of [Kokkos::LayoutLeft],
    [Kokkos::LayoutRight] and [Kokkos::LayoutStride] are declared outside
    this file; they store their arguments slot by slot. *)
Definition Layout_ctor (kind : array_layout)
    (N0 N1 N2 N3 N4 N5 N6 N7 : Z) : Layout :=
  {| layout_kind := kind
   ; dimension := [N0; N1; N2; N3; N4; N5; N6; N7]
   ; stride := [] |}.

Definition LayoutStride_ctor
    (N0 S0 N1 S1 N2 S2 N3 S3 N4 S4 N5 S5 N6 S6 N7 S7 : Z) : Layout :=
  {| layout_kind := LayoutStride
   ; dimension := [N0; N1; N2; N3; N4; N5; N6; N7]
   ; stride := [S0; S1; S2; S3; S4; S5; S6; S7] |}.

(** [l.dimension[i] = v]; the index is always below 8 in this file. *)
Definition set_dimension (i : nat) (v : Z) (l : Layout) : Layout :=
  {| layout_kind := layout_kind l
   ; dimension := <[i := v]> (dimension l)
   ; stride := stride l |}.

(** ** [DynRankDimTraits<ViewSpecializeSacadoFad>] *)

Module DynRankDimTraits.

Definition unspecified : Z := Eval cbv in SizeT.lnot0.

(** Compute the rank of the view from the dimension arguments; for views
    of Fad the rank is one less than the number of leading arguments. *)
Definition computeRank (N0 N1 N2 N3 N4 N5 N6 N7 : Z) : Z :=
  if (N7 =? unspecified) && (N6 =? unspecified) && (N5 =? unspecified)
     && (N4 =? unspecified) && (N3 =? unspecified) && (N2 =? unspecified)
     && (N1 =? unspecified) && (N0 =? unspecified) then 0
  else if (N7 =? unspecified) && (N6 =? unspecified) && (N5 =? unspecified)
     && (N4 =? unspecified) && (N3 =? unspecified) && (N2 =? unspecified)
     && (N1 =? unspecified) then 0
  else if (N7 =? unspecified) && (N6 =? unspecified) && (N5 =? unspecified)
     && (N4 =? unspecified) && (N3 =? unspecified) && (N2 =? unspecified)
     then 1
  else if (N7 =? unspecified) && (N6 =? unspecified) && (N5 =? unspecified)
     && (N4 =? unspecified) && (N3 =? unspecified) then 2
  else if (N7 =? unspecified) && (N6 =? unspecified) && (N5 =? unspecified)
     && (N4 =? unspecified) then 3
  else if (N7 =? unspecified) && (N6 =? unspecified) && (N5 =? unspecified)
     then 4
  else if (N7 =? unspecified) && (N6 =? unspecified) then 5
  else if (N7 =? unspecified) then 6
  else 7.

(** Compute the rank of the view from the layout arguments. *)
Definition computeRank_layout (layout : Layout) : Z :=
  computeRank (dimension layout !!! 0%nat) (dimension layout !!! 1%nat)
              (dimension layout !!! 2%nat) (dimension layout !!! 3%nat)
              (dimension layout !!! 4%nat) (dimension layout !!! 5%nat)
              (dimension layout !!! 6%nat) (dimension layout !!! 7%nat).

(** [layout.dimension[i] != unspecified ? layout.dimension[i] : 1] *)
Definition dim_or_1 (layout : Layout) (i : nat) : Z :=
  if neq (dimension layout !!! i) unspecified
  then dimension layout !!! i else 1.

(** [createLayout] for [LayoutLeft] and [LayoutRight]: the fad dimension
    is moved to the last slot. *)
Definition createLayout_LR (layout : Layout) : Layout :=
  let l := Layout_ctor (layout_kind layout)
             (dim_or_1 layout 0) (dim_or_1 layout 1) (dim_or_1 layout 2)
             (dim_or_1 layout 3) (dim_or_1 layout 4) (dim_or_1 layout 5)
             (dim_or_1 layout 6) (dim_or_1 layout 7) in
  let fad_dim := Z.to_nat (SizeT.to_unsigned (computeRank_layout layout)) in
  let fad_size := dimension layout !!! fad_dim in
  let l := set_dimension fad_dim 1 l in
  let l := set_dimension 7 fad_size l in
  l.

(** [createLayout] for [LayoutStride]. *)
Definition createLayout_Stride (layout : Layout) : Layout :=
  let l := LayoutStride_ctor
             (dim_or_1 layout 0) (stride layout !!! 0%nat)
             (dim_or_1 layout 1) (stride layout !!! 1%nat)
             (dim_or_1 layout 2) (stride layout !!! 2%nat)
             (dim_or_1 layout 3) (stride layout !!! 3%nat)
             (dim_or_1 layout 4) (stride layout !!! 4%nat)
             (dim_or_1 layout 5) (stride layout !!! 5%nat)
             (dim_or_1 layout 6) (stride layout !!! 6%nat)
             (dim_or_1 layout 7) (stride layout !!! 7%nat) in
  let fad_dim := Z.to_nat (SizeT.to_unsigned (computeRank_layout layout)) in
  let fad_size := dimension layout !!! fad_dim in
  let l := set_dimension fad_dim 1 l in
  let l := set_dimension 7 fad_size l in
  l.

(** Overload selection by [std::enable_if] on the layout type. *)
Definition createLayout (layout : Layout) : Layout :=
  match layout_kind layout with
  | LayoutLeft | LayoutRight => createLayout_LR layout
  | LayoutStride => createLayout_Stride layout
  end.

(** A slot is specified when it does not hold the sentinel. *)
Definition specified (n : Z) : bool := neq n unspecified.

(** [k] leading specified slots followed by unspecified ones. *)
Definition leading_specified (k : nat) (dims : list Z) : bool :=
  forallb specified (take k dims)
  && forallb (fun n => negb (specified n)) (drop k dims).

End DynRankDimTraits.

(** ** View offsets

    [ViewOffset] holds the eight extents [m_dim.N0 .. m_dim.N7] and the
    eight strides [m_stride.S0 .. m_stride.S7] of a view. *)

Record ViewDimension : Type := mkViewDimension
  { N0 : Z; N1 : Z; N2 : Z; N3 : Z; N4 : Z; N5 : Z; N6 : Z; N7 : Z }.

Record ViewStride : Type := mkViewStride
  { S0 : Z; S1 : Z; S2 : Z; S3 : Z; S4 : Z; S5 : Z; S6 : Z; S7 : Z }.

Record ViewOffset : Type := mkViewOffset
  { m_dim : ViewDimension
  ; m_stride : ViewStride }.

(** Modelled from the spec: [ViewDimension::extent(r)] is declared in the
    Kokkos core; it returns the extent of slot [r], and 0 past slot 7. *)
Definition extent (d : ViewDimension) (r : nat) : Z :=
  match r with
  | 0%nat => N0 d | 1%nat => N1 d | 2%nat => N2 d | 3%nat => N3 d
  | 4%nat => N4 d | 5%nat => N5 d | 6%nat => N6 d | 7%nat => N7 d
  | _ => 0
  end.

(** The stride of slot [r], as [stride_0() .. stride_7()] return it. *)
Definition stride_slot (s : ViewStride) (r : nat) : Z :=
  match r with
  | 0%nat => S0 s | 1%nat => S1 s | 2%nat => S2 s | 3%nat => S3 s
  | 4%nat => S4 s | 5%nat => S5 s | 6%nat => S6 s | 7%nat => S7 s
  | _ => 0
  end.

(** Field assignments [d.Nk = v] and [s.Sk = v]. *)

Definition set_N0 (v : Z) (d : ViewDimension) : ViewDimension :=
  {| N0 := v; N1 := N1 d; N2 := N2 d; N3 := N3 d
   ; N4 := N4 d; N5 := N5 d; N6 := N6 d; N7 := N7 d |}.

Definition set_N1 (v : Z) (d : ViewDimension) : ViewDimension :=
  {| N0 := N0 d; N1 := v; N2 := N2 d; N3 := N3 d
   ; N4 := N4 d; N5 := N5 d; N6 := N6 d; N7 := N7 d |}.

Definition set_N2 (v : Z) (d : ViewDimension) : ViewDimension :=
  {| N0 := N0 d; N1 := N1 d; N2 := v; N3 := N3 d
   ; N4 := N4 d; N5 := N5 d; N6 := N6 d; N7 := N7 d |}.

Definition set_N3 (v : Z) (d : ViewDimension) : ViewDimension :=
  {| N0 := N0 d; N1 := N1 d; N2 := N2 d; N3 := v
   ; N4 := N4 d; N5 := N5 d; N6 := N6 d; N7 := N7 d |}.

Definition set_N4 (v : Z) (d : ViewDimension) : ViewDimension :=
  {| N0 := N0 d; N1 := N1 d; N2 := N2 d; N3 := N3 d
   ; N4 := v; N5 := N5 d; N6 := N6 d; N7 := N7 d |}.

Definition set_N5 (v : Z) (d : ViewDimension) : ViewDimension :=
  {| N0 := N0 d; N1 := N1 d; N2 := N2 d; N3 := N3 d
   ; N4 := N4 d; N5 := v; N6 := N6 d; N7 := N7 d |}.

Definition set_N6 (v : Z) (d : ViewDimension) : ViewDimension :=
  {| N0 := N0 d; N1 := N1 d; N2 := N2 d; N3 := N3 d
   ; N4 := N4 d; N5 := N5 d; N6 := v; N7 := N7 d |}.

Definition set_N7 (v : Z) (d : ViewDimension) : ViewDimension :=
  {| N0 := N0 d; N1 := N1 d; N2 := N2 d; N3 := N3 d
   ; N4 := N4 d; N5 := N5 d; N6 := N6 d; N7 := v |}.

Definition set_S0 (v : Z) (s : ViewStride) : ViewStride :=
  {| S0 := v; S1 := S1 s; S2 := S2 s; S3 := S3 s
   ; S4 := S4 s; S5 := S5 s; S6 := S6 s; S7 := S7 s |}.

Definition set_S1 (v : Z) (s : ViewStride) : ViewStride :=
  {| S0 := S0 s; S1 := v; S2 := S2 s; S3 := S3 s
   ; S4 := S4 s; S5 := S5 s; S6 := S6 s; S7 := S7 s |}.

Definition set_S2 (v : Z) (s : ViewStride) : ViewStride :=
  {| S0 := S0 s; S1 := S1 s; S2 := v; S3 := S3 s
   ; S4 := S4 s; S5 := S5 s; S6 := S6 s; S7 := S7 s |}.

Definition set_S3 (v : Z) (s : ViewStride) : ViewStride :=
  {| S0 := S0 s; S1 := S1 s; S2 := S2 s; S3 := v
   ; S4 := S4 s; S5 := S5 s; S6 := S6 s; S7 := S7 s |}.

Definition set_S4 (v : Z) (s : ViewStride) : ViewStride :=
  {| S0 := S0 s; S1 := S1 s; S2 := S2 s; S3 := S3 s
   ; S4 := v; S5 := S5 s; S6 := S6 s; S7 := S7 s |}.

Definition set_S5 (v : Z) (s : ViewStride) : ViewStride :=
  {| S0 := S0 s; S1 := S1 s; S2 := S2 s; S3 := S3 s
   ; S4 := S4 s; S5 := v; S6 := S6 s; S7 := S7 s |}.

Definition set_S6 (v : Z) (s : ViewStride) : ViewStride :=
  {| S0 := S0 s; S1 := S1 s; S2 := S2 s; S3 := S3 s
   ; S4 := S4 s; S5 := S5 s; S6 := v; S7 := S7 s |}.

Definition set_S7 (v : Z) (s : ViewStride) : ViewStride :=
  {| S0 := S0 s; S1 := S1 s; S2 := S2 s; S3 := S3 s
   ; S4 := S4 s; S5 := S5 s; S6 := S6 s; S7 := v |}.

(** [o.m_dim] and [o.m_stride] as the targets of an assignment. *)
Definition upd_dim (f : ViewDimension -> ViewDimension) (o : ViewOffset)
  : ViewOffset :=
  {| m_dim := f (m_dim o); m_stride := m_stride o |}.

Definition upd_stride (f : ViewStride -> ViewStride) (o : ViewOffset)
  : ViewOffset :=
  {| m_dim := m_dim o; m_stride := f (m_stride o) |}.

(** A block of statements run in order on the destination. *)
Definition run {A : Type} (stmts : list (A -> A)) (a : A) : A :=
  fold_left (fun acc stmt => stmt acc) stmts a.

(** ** [AssignDim7] and [AssignFadDimStride]

    The primary template [AssignDim7<StaticDim>] does nothing; the
    specialization at [0u] stores the source extent in [N7]. *)
Definition AssignDim7_eval (StaticDim : Z) (src_dim : Z) (dst : ViewDimension)
  : ViewDimension :=
  if StaticDim =? 0 then set_N7 src_dim dst else dst.


Definition AssignFadDimStride_0 (StaticDim : Z) (dst src : ViewOffset)
  : ViewOffset :=
  run [ upd_stride (set_S0 0)
      ; upd_stride (set_S1 0)
      ; upd_stride (set_S2 0)
      ; upd_stride (set_S3 0)
      ; upd_stride (set_S4 0)
      ; upd_stride (set_S5 0)
      ; upd_stride (set_S6 0)
      ; upd_stride (set_S7 (S0 (m_stride src)))
      ; upd_dim (set_N0 1)
      ; upd_dim (set_N1 1)
      ; upd_dim (set_N2 1)
      ; upd_dim (set_N3 1)
      ; upd_dim (set_N4 1)
      ; upd_dim (set_N5 1)
      ; upd_dim (set_N6 1)
      ; upd_dim (AssignDim7_eval StaticDim (N0 (m_dim src))) ] dst.

Definition AssignFadDimStride_1 (StaticDim : Z) (dst src : ViewOffset)
  : ViewOffset :=
  run [ upd_stride (set_S0 (S0 (m_stride src)))
      ; upd_stride (set_S1 0)
      ; upd_stride (set_S2 0)
      ; upd_stride (set_S3 0)
      ; upd_stride (set_S4 0)
      ; upd_stride (set_S5 0)
      ; upd_stride (set_S6 0)
      ; upd_stride (set_S7 (S1 (m_stride src)))
      ; upd_dim (set_N0 (N0 (m_dim src)))
      ; upd_dim (set_N1 1)
      ; upd_dim (set_N2 1)
      ; upd_dim (set_N3 1)
      ; upd_dim (set_N4 1)
      ; upd_dim (set_N5 1)
      ; upd_dim (set_N6 1)
      ; upd_dim (AssignDim7_eval StaticDim (N1 (m_dim src))) ] dst.

Definition AssignFadDimStride_2 (StaticDim : Z) (dst src : ViewOffset)
  : ViewOffset :=
  run [ upd_stride (set_S0 (S0 (m_stride src)))
      ; upd_stride (set_S1 (S1 (m_stride src)))
      ; upd_stride (set_S2 0)
      ; upd_stride (set_S3 0)
      ; upd_stride (set_S4 0)
      ; upd_stride (set_S5 0)
      ; upd_stride (set_S6 0)
      ; upd_stride (set_S7 (S2 (m_stride src)))
      ; upd_dim (set_N0 (N0 (m_dim src)))
      ; upd_dim (set_N1 (N1 (m_dim src)))
      ; upd_dim (set_N2 1)
      ; upd_dim (set_N3 1)
      ; upd_dim (set_N4 1)
      ; upd_dim (set_N5 1)
      ; upd_dim (set_N6 1)
      ; upd_dim (AssignDim7_eval StaticDim (N2 (m_dim src))) ] dst.

Definition AssignFadDimStride_3 (StaticDim : Z) (dst src : ViewOffset)
  : ViewOffset :=
  run [ upd_stride (set_S0 (S0 (m_stride src)))
      ; upd_stride (set_S1 (S1 (m_stride src)))
      ; upd_stride (set_S2 (S2 (m_stride src)))
      ; upd_stride (set_S3 0)
      ; upd_stride (set_S4 0)
      ; upd_stride (set_S5 0)
      ; upd_stride (set_S6 0)
      ; upd_stride (set_S7 (S3 (m_stride src)))
      ; upd_dim (set_N0 (N0 (m_dim src)))
      ; upd_dim (set_N1 (N1 (m_dim src)))
      ; upd_dim (set_N2 (N2 (m_dim src)))
      ; upd_dim (set_N3 1)
      ; upd_dim (set_N4 1)
      ; upd_dim (set_N5 1)
      ; upd_dim (set_N6 1)
      ; upd_dim (AssignDim7_eval StaticDim (N3 (m_dim src))) ] dst.

Definition AssignFadDimStride_4 (StaticDim : Z) (dst src : ViewOffset)
  : ViewOffset :=
  run [ upd_stride (set_S0 (S0 (m_stride src)))
      ; upd_stride (set_S1 (S1 (m_stride src)))
      ; upd_stride (set_S2 (S2 (m_stride src)))
      ; upd_stride (set_S3 (S3 (m_stride src)))
      ; upd_stride (set_S4 0)
      ; upd_stride (set_S5 0)
      ; upd_stride (set_S6 0)
      ; upd_stride (set_S7 (S4 (m_stride src)))
      ; upd_dim (set_N0 (N0 (m_dim src)))
      ; upd_dim (set_N1 (N1 (m_dim src)))
      ; upd_dim (set_N2 (N2 (m_dim src)))
      ; upd_dim (set_N3 (N3 (m_dim src)))
      ; upd_dim (set_N4 1)
      ; upd_dim (set_N5 1)
      ; upd_dim (set_N6 1)
      ; upd_dim (AssignDim7_eval StaticDim (N4 (m_dim src))) ] dst.

Definition AssignFadDimStride_5 (StaticDim : Z) (dst src : ViewOffset)
  : ViewOffset :=
  run [ upd_stride (set_S0 (S0 (m_stride src)))
      ; upd_stride (set_S1 (S1 (m_stride src)))
      ; upd_stride (set_S2 (S2 (m_stride src)))
      ; upd_stride (set_S3 (S3 (m_stride src)))
      ; upd_stride (set_S4 (S4 (m_stride src)))
      ; upd_stride (set_S5 0)
      ; upd_stride (set_S6 0)
      ; upd_stride (set_S7 (S5 (m_stride src)))
      ; upd_dim (set_N0 (N0 (m_dim src)))
      ; upd_dim (set_N1 (N1 (m_dim src)))
      ; upd_dim (set_N2 (N2 (m_dim src)))
      ; upd_dim (set_N3 (N3 (m_dim src)))
      ; upd_dim (set_N4 (N4 (m_dim src)))
      ; upd_dim (set_N5 1)
      ; upd_dim (set_N6 1)
      ; upd_dim (AssignDim7_eval StaticDim (N5 (m_dim src))) ] dst.

Definition AssignFadDimStride_6 (StaticDim : Z) (dst src : ViewOffset)
  : ViewOffset :=
  run [ upd_stride (set_S0 (S0 (m_stride src)))
      ; upd_stride (set_S1 (S1 (m_stride src)))
      ; upd_stride (set_S2 (S2 (m_stride src)))
      ; upd_stride (set_S3 (S3 (m_stride src)))
      ; upd_stride (set_S4 (S4 (m_stride src)))
      ; upd_stride (set_S5 (S5 (m_stride src)))
      ; upd_stride (set_S6 0)
      ; upd_stride (set_S7 (S6 (m_stride src)))
      ; upd_dim (set_N0 (N0 (m_dim src)))
      ; upd_dim (set_N1 (N1 (m_dim src)))
      ; upd_dim (set_N2 (N2 (m_dim src)))
      ; upd_dim (set_N3 (N3 (m_dim src)))
      ; upd_dim (set_N4 (N4 (m_dim src)))
      ; upd_dim (set_N5 (N5 (m_dim src)))
      ; upd_dim (set_N6 1)
      ; upd_dim (AssignDim7_eval StaticDim (N6 (m_dim src))) ] dst.

Definition AssignFadDimStride_7 (StaticDim : Z) (dst src : ViewOffset)
  : ViewOffset :=
  run [ upd_stride (set_S0 (S0 (m_stride src)))
      ; upd_stride (set_S1 (S1 (m_stride src)))
      ; upd_stride (set_S2 (S2 (m_stride src)))
      ; upd_stride (set_S3 (S3 (m_stride src)))
      ; upd_stride (set_S4 (S4 (m_stride src)))
      ; upd_stride (set_S5 (S5 (m_stride src)))
      ; upd_stride (set_S6 (S6 (m_stride src)))
      ; upd_stride (set_S7 (S7 (m_stride src)))
      ; upd_dim (set_N0 (N0 (m_dim src)))
      ; upd_dim (set_N1 (N1 (m_dim src)))
      ; upd_dim (set_N2 (N2 (m_dim src)))
      ; upd_dim (set_N3 (N3 (m_dim src)))
      ; upd_dim (set_N4 (N4 (m_dim src)))
      ; upd_dim (set_N5 (N5 (m_dim src)))
      ; upd_dim (set_N6 (N6 (m_dim src)))
      ; upd_dim (AssignDim7_eval StaticDim (N7 (m_dim src))) ] dst.

(** Dispatch on the rank; the primary template has no [eval], so a rank
    above 7 does not instantiate. *)
Definition AssignFadDimStride_eval (R : nat) (StaticDim : Z)
    (dst src : ViewOffset) : option ViewOffset :=
  match R with
  | 0%nat => Some (AssignFadDimStride_0 StaticDim dst src)
  | 1%nat => Some (AssignFadDimStride_1 StaticDim dst src)
  | 2%nat => Some (AssignFadDimStride_2 StaticDim dst src)
  | 3%nat => Some (AssignFadDimStride_3 StaticDim dst src)
  | 4%nat => Some (AssignFadDimStride_4 StaticDim dst src)
  | 5%nat => Some (AssignFadDimStride_5 StaticDim dst src)
  | 6%nat => Some (AssignFadDimStride_6 StaticDim dst src)
  | 7%nat => Some (AssignFadDimStride_7 StaticDim dst src)
  | _ => None
  end.

(** ** [AssignFadDim7] and [AssignDim] *)

Definition AssignFadDim7_eval (FadStaticDim : Z) (src : ViewOffset) (dim : nat)
    (dst : ViewOffset) : ViewOffset :=
  if FadStaticDim =? 0
  then upd_dim (set_N7 (extent (m_dim src) dim)) dst
  else dst.


Definition AssignDim_0 (FadStaticDim : Z) (dst src : ViewOffset)
  : ViewOffset :=
  run [ upd_dim (set_N0 1)
      ; upd_dim (set_N1 1)
      ; upd_dim (set_N2 1)
      ; upd_dim (set_N3 1)
      ; upd_dim (set_N4 1)
      ; upd_dim (set_N5 1)
      ; upd_dim (set_N6 1)
      ; AssignFadDim7_eval FadStaticDim src 0 ] dst.

Definition AssignDim_1 (FadStaticDim : Z) (dst src : ViewOffset)
  : ViewOffset :=
  run [ upd_dim (set_N0 (N0 (m_dim src)))
      ; upd_dim (set_N1 1)
      ; upd_dim (set_N2 1)
      ; upd_dim (set_N3 1)
      ; upd_dim (set_N4 1)
      ; upd_dim (set_N5 1)
      ; upd_dim (set_N6 1)
      ; AssignFadDim7_eval FadStaticDim src 1 ] dst.

Definition AssignDim_2 (FadStaticDim : Z) (dst src : ViewOffset)
  : ViewOffset :=
  run [ upd_dim (set_N0 (N0 (m_dim src)))
      ; upd_dim (set_N1 (N1 (m_dim src)))
      ; upd_dim (set_N2 1)
      ; upd_dim (set_N3 1)
      ; upd_dim (set_N4 1)
      ; upd_dim (set_N5 1)
      ; upd_dim (set_N6 1)
      ; AssignFadDim7_eval FadStaticDim src 2 ] dst.

Definition AssignDim_3 (FadStaticDim : Z) (dst src : ViewOffset)
  : ViewOffset :=
  run [ upd_dim (set_N0 (N0 (m_dim src)))
      ; upd_dim (set_N1 (N1 (m_dim src)))
      ; upd_dim (set_N2 (N2 (m_dim src)))
      ; upd_dim (set_N3 1)
      ; upd_dim (set_N4 1)
      ; upd_dim (set_N5 1)
      ; upd_dim (set_N6 1)
      ; AssignFadDim7_eval FadStaticDim src 3 ] dst.

Definition AssignDim_4 (FadStaticDim : Z) (dst src : ViewOffset)
  : ViewOffset :=
  run [ upd_dim (set_N0 (N0 (m_dim src)))
      ; upd_dim (set_N1 (N1 (m_dim src)))
      ; upd_dim (set_N2 (N2 (m_dim src)))
      ; upd_dim (set_N3 (N3 (m_dim src)))
      ; upd_dim (set_N4 1)
      ; upd_dim (set_N5 1)
      ; upd_dim (set_N6 1)
      ; AssignFadDim7_eval FadStaticDim src 4 ] dst.

Definition AssignDim_5 (FadStaticDim : Z) (dst src : ViewOffset)
  : ViewOffset :=
  run [ upd_dim (set_N0 (N0 (m_dim src)))
      ; upd_dim (set_N1 (N1 (m_dim src)))
      ; upd_dim (set_N2 (N2 (m_dim src)))
      ; upd_dim (set_N3 (N3 (m_dim src)))
      ; upd_dim (set_N4 (N4 (m_dim src)))
      ; upd_dim (set_N5 1)
      ; upd_dim (set_N6 1)
      ; AssignFadDim7_eval FadStaticDim src 5 ] dst.

Definition AssignDim_6 (FadStaticDim : Z) (dst src : ViewOffset)
  : ViewOffset :=
  run [ upd_dim (set_N0 (N0 (m_dim src)))
      ; upd_dim (set_N1 (N1 (m_dim src)))
      ; upd_dim (set_N2 (N2 (m_dim src)))
      ; upd_dim (set_N3 (N3 (m_dim src)))
      ; upd_dim (set_N4 (N4 (m_dim src)))
      ; upd_dim (set_N5 (N5 (m_dim src)))
      ; upd_dim (set_N6 1)
      ; AssignFadDim7_eval FadStaticDim src 6 ] dst.

Definition AssignDim_7 (FadStaticDim : Z) (dst src : ViewOffset)
  : ViewOffset :=
  run [ upd_dim (set_N0 (N0 (m_dim src)))
      ; upd_dim (set_N1 (N1 (m_dim src)))
      ; upd_dim (set_N2 (N2 (m_dim src)))
      ; upd_dim (set_N3 (N3 (m_dim src)))
      ; upd_dim (set_N4 (N4 (m_dim src)))
      ; upd_dim (set_N5 (N5 (m_dim src)))
      ; upd_dim (set_N6 (N6 (m_dim src)))
      ; AssignFadDim7_eval FadStaticDim src 7 ] dst.

Definition AssignDim_eval (R : nat) (FadStaticDim : Z)
    (dst src : ViewOffset) : option ViewOffset :=
  match R with
  | 0%nat => Some (AssignDim_0 FadStaticDim dst src)
  | 1%nat => Some (AssignDim_1 FadStaticDim dst src)
  | 2%nat => Some (AssignDim_2 FadStaticDim dst src)
  | 3%nat => Some (AssignDim_3 FadStaticDim dst src)
  | 4%nat => Some (AssignDim_4 FadStaticDim dst src)
  | 5%nat => Some (AssignDim_5 FadStaticDim dst src)
  | 6%nat => Some (AssignDim_6 FadStaticDim dst src)
  | 7%nat => Some (AssignDim_7 FadStaticDim dst src)
  | _ => None
  end.

(** ** Views *)

Inductive specialize : Set :=
| ViewSpecializeSacadoFad
| ViewSpecializeSacadoFadContiguous
| ViewSpecializeVoid.

Definition specialize_eqb (a b : specialize) : bool :=
  match a, b with
  | ViewSpecializeSacadoFad, ViewSpecializeSacadoFad
  | ViewSpecializeSacadoFadContiguous, ViewSpecializeSacadoFadContiguous
  | ViewSpecializeVoid, ViewSpecializeVoid => true
  | _, _ => false
  end.

(** An element type with its const qualification. *)
Record ValueType : Type := mkValueType
  { type_name : string
  ; is_const : bool }.

Definition ValueType_eqb (a b : ValueType) : bool :=
  String.eqb (type_name a) (type_name b) && Bool.eqb (is_const a) (is_const b).

Definition non_const_value_type (t : ValueType) : ValueType :=
  {| type_name := type_name t; is_const := false |}.

Definition const_value_type (t : ValueType) : ValueType :=
  {| type_name := type_name t; is_const := true |}.

(** The compile-time traits of a view type that this file reads. *)
Record ViewTraits : Type := mkViewTraits
  { value_type : ValueType
  ; array_layout_of : array_layout
  ; specialize_of : specialize
  ; memory_space : nat
  ; execution_space : nat
  ; execution_memory_space : nat    (* execution_space::memory_space *)
  ; rank_of : nat                   (* traits::rank *)
  ; FadStaticDimension : Z
  ; sizeof_value_type : Z           (* sizeof(value_type) *)
  ; sizeof_inner_value_type : Z }.  (* sizeof(value_type::value_type) *)

(** The mapping of a view: data handle, offset, and the derivative size and
    stride kept beside the offset. *)
Record ViewMap : Type := mkViewMap
  { m_handle : Z
  ; m_offset : ViewOffset
  ; m_fad_size : Z
  ; m_fad_stride : Z }.

Record DynRankView : Type := mkDynRankView
  { m_track : Z
  ; m_map : ViewMap
  ; m_rank : Z }.

(** A [Kokkos::View]; its rank is the static [traits::rank]. *)
Record View : Type := mkView
  { view_track : Z
  ; view_map : ViewMap }.

Definition set_m_track (t : Z) (v : DynRankView) : DynRankView :=
  {| m_track := t; m_map := m_map v; m_rank := m_rank v |}.

Definition set_m_rank (r : Z) (v : DynRankView) : DynRankView :=
  {| m_track := m_track v; m_map := m_map v; m_rank := r |}.

Definition upd_m_map (f : ViewMap -> ViewMap) (v : DynRankView) : DynRankView :=
  {| m_track := m_track v; m_map := f (m_map v); m_rank := m_rank v |}.

Definition set_m_handle (h : Z) (m : ViewMap) : ViewMap :=
  {| m_handle := h; m_offset := m_offset m
   ; m_fad_size := m_fad_size m; m_fad_stride := m_fad_stride m |}.

Definition set_m_offset (o : ViewOffset) (m : ViewMap) : ViewMap :=
  {| m_handle := m_handle m; m_offset := o
   ; m_fad_size := m_fad_size m; m_fad_stride := m_fad_stride m |}.

Definition upd_m_offset (f : ViewOffset -> ViewOffset) (m : ViewMap) : ViewMap :=
  set_m_offset (f (m_offset m)) m.

Definition set_m_fad_size (n : Z) (m : ViewMap) : ViewMap :=
  {| m_handle := m_handle m; m_offset := m_offset m
   ; m_fad_size := n; m_fad_stride := m_fad_stride m |}.

Definition set_m_fad_stride (n : Z) (m : ViewMap) : ViewMap :=
  {| m_handle := m_handle m; m_offset := m_offset m
   ; m_fad_size := m_fad_size m; m_fad_stride := n |}.

(** ** Subviews of dynamic-rank views *)

(** One slicing argument: a single index, a pair of bounds, or
    [Kokkos::ALL()]. *)
Inductive SliceArg : Type :=
| Index (i : Z)
| Range (b e : Z)
| ALL.

(** Modelled from the spec: [is_integral_extent<I,Args...>] is declared in
    the Kokkos core; it holds when argument [I] is present and is a range
    (a pair or [ALL]), not a single index. *)
Definition is_integral_extent (I : nat) (args : list SliceArg) : bool :=
  match args !! I with
  | Some (Range _ _) | Some ALL => true
  | _ => false
  end.

(** The parts of the Kokkos core that [subview] calls. *)
Record SubviewCore : Type := mkSubviewCore
  { SubviewExtents : Type
    (* SubviewExtents<8,rank+1>( dim, arg0 .. arg6, ALL ) *)
  ; SubviewExtents_ctor : ViewDimension -> list SliceArg -> SubviewExtents
  ; domain_offset : SubviewExtents -> nat -> Z
    (* ViewOffset( src_offset, extents ) *)
  ; ViewOffset_ctor : ViewOffset -> SubviewExtents -> ViewOffset
    (* src_offset( i0, .. , i7 ) *)
  ; offset_at : ViewOffset -> list Z -> Z
    (* a default-constructed DynRankView *)
  ; DynRankView_default : DynRankView }.

Definition unsigned_of_bool (b : bool) : Z := if b then 1 else 0.

(** [ExtentGenerator<Args...>::generator]: absent arguments are
    value-initialized [int]s; the last extent is always [ALL]. *)
Definition generator (K : SubviewCore) (dim : ViewDimension)
    (args : list SliceArg) : SubviewExtents K :=
  let arg i := default (Index 0) (args !! i) in
  SubviewExtents_ctor K dim
    [arg 0%nat; arg 1%nat; arg 2%nat; arg 3%nat; arg 4%nat; arg 5%nat;
     arg 6%nat; ALL].

(** [subview] of the mapping specialized for sources of Fad (any of the
    three layouts); for another source this specialization is not the one
    selected, and the result is [None]. *)
Definition subview (K : SubviewCore) (SrcTraits : ViewTraits)
    (src_rank : Z) (src : DynRankView) (args : list SliceArg)
  : option DynRankView :=
  let R0 := is_integral_extent 0 args in
  let R1 := is_integral_extent 1 args in
  let R2 := is_integral_extent 2 args in
  let R3 := is_integral_extent 3 args in
  let R4 := is_integral_extent 4 args in
  let R5 := is_integral_extent 5 args in
  let R6 := is_integral_extent 6 args in
  let rank := Z.to_nat (unsigned_of_bool R0 + unsigned_of_bool R1
                        + unsigned_of_bool R2 + unsigned_of_bool R3
                        + unsigned_of_bool R4 + unsigned_of_bool R5
                        + unsigned_of_bool R6) in
  let FadStaticDim := FadStaticDimension SrcTraits in
  if negb (specialize_eqb (specialize_of SrcTraits) ViewSpecializeSacadoFad)
  then None else
  let dst := DynRankView_default K in
  let extents := generator K (m_dim (m_offset (m_map src))) args in
  let tempdst := ViewOffset_ctor K (m_offset (m_map src)) extents in
  let dst := set_m_track (m_track src) dst in
  match AssignFadDimStride_eval rank FadStaticDim
          (m_offset (m_map dst)) tempdst with
  | None => None
  | Some off =>
    let dst := upd_m_map (set_m_offset off) dst in
    let dst := set_m_track (m_track src) dst in
    let dst := upd_m_map (set_m_handle
                 (m_handle (m_map src)
                  + offset_at K (m_offset (m_map src))
                      (map (domain_offset K extents) (seq 0 8)))) dst in
    let dst := upd_m_map (set_m_fad_size (m_fad_size (m_map src))) dst in
    let dst := upd_m_map (set_m_fad_stride (m_fad_stride (m_map src))) dst in
    let dst := set_m_rank
                 ((if 0 <? src_rank then unsigned_of_bool R0 else 0)
                  + (if 1 <? src_rank then unsigned_of_bool R1 else 0)
                  + (if 2 <? src_rank then unsigned_of_bool R2 else 0)
                  + (if 3 <? src_rank then unsigned_of_bool R3 else 0)
                  + (if 4 <? src_rank then unsigned_of_bool R4 else 0)
                  + (if 5 <? src_rank then unsigned_of_bool R5 else 0)
                  + (if 6 <? src_rank then unsigned_of_bool R6 else 0)) dst in
    Some dst
  end.

(** ** Assignment of a view of Fad to a dynamic-rank view *)

Module ViewToDynRankView.

(** The [enable_if] condition of the mapping together with the
    [static_assert] of [assign] on the value types: when it fails the
    assignment does not compile.  The [static_assert] on the layouts holds
    for each of the three layouts of [array_layout]. *)
Definition is_assignable (DstTraits SrcTraits : ViewTraits) : bool :=
  (memory_space DstTraits =? memory_space SrcTraits)%nat
  && (specialize_eqb (specialize_of DstTraits) ViewSpecializeSacadoFad
      || specialize_eqb (specialize_of DstTraits) ViewSpecializeVoid)
  && specialize_eqb (specialize_of SrcTraits) ViewSpecializeSacadoFad
  && (ValueType_eqb (value_type DstTraits) (value_type SrcTraits)
      || ValueType_eqb (value_type DstTraits)
                       (const_value_type (value_type SrcTraits))).

(** The two overloads of [assign_fad_size<S>]. *)
Definition assign_fad_size (S : specialize) (dst src : ViewMap) : ViewMap :=
  if specialize_eqb S ViewSpecializeSacadoFad
  then run [ set_m_fad_size (m_fad_size src)
           ; set_m_fad_stride (m_fad_stride src) ] dst
  else dst.

Definition assign (DstTraits SrcTraits : ViewTraits)
    (dst : DynRankView) (src : View) : option DynRankView :=
  if is_assignable DstTraits SrcTraits then
    let FadStaticDim := FadStaticDimension SrcTraits in
    match AssignDim_eval (rank_of SrcTraits) FadStaticDim
            (m_offset (m_map dst)) (m_offset (view_map src)) with
    | None => None
    | Some off =>
      let dst := upd_m_map (set_m_offset off) dst in
      let dst := upd_m_map (set_m_handle (m_handle (view_map src))) dst in
      let dst := set_m_rank (Z.of_nat (rank_of SrcTraits)) dst in
      let dst := upd_m_map (upd_m_offset
                   (upd_stride (fun _ => m_stride (m_offset (view_map src)))))
                   dst in
      let dst := upd_m_map (fun m =>
                   assign_fad_size (specialize_of DstTraits) m (view_map src))
                   dst in
      Some dst
    end
  else None.

End ViewToDynRankView.

(** The product of the eight extents of a descriptor. *)
Definition dim_product (d : ViewDimension) : Z :=
  N0 d * N1 d * N2 d * N3 d * N4 d * N5 d * N6 d * N7 d.

(** The product of the extents of slots [0 .. R] of a descriptor. *)
Definition populated_product (d : ViewDimension) (R : nat) : Z :=
  fold_right Z.mul 1 (map (extent d) (seq 0 (S R))).

(** ** [deep_copy] between two views of Fad *)

(** The parts of the Kokkos core that [deep_copy] calls.  [Mem] is the state
    of the memory spaces; the two copy primitives transform it. *)
Record CopyCore : Type := mkCopyCore
  { Mem : Type
    (* VerifyExecutionCanAccessMemorySpace<ExecMemSpace,MemSpace>::value *)
  ; VerifyExecutionCanAccessMemorySpace : nat -> nat -> bool
    (* view.span() *)
  ; span : ViewTraits -> DynRankView -> Z
    (* DeepCopy<DstSpace,SrcSpace>( dst_ptr, src_ptr, nbytes ) *)
  ; DeepCopy : nat -> nat -> Z -> Z -> Z -> Mem -> Mem
    (* DynRankViewRemap<DstType,SrcType,ExecSpace>( dst, src ) *)
  ; DynRankViewRemap :
      ViewTraits -> ViewTraits -> nat -> DynRankView -> DynRankView ->
      Mem -> Mem }.

(** What a call does: it is rejected at compile time, it returns, or it
    throws; the last two carry the memory they leave behind. *)
Inductive outcome (M : Type) : Type :=
| Rejected (msg : string)
| Returned (mem : M)
| Thrown (msg : string) (mem : M).

Arguments Rejected {M} msg.
Arguments Returned {M} mem.
Arguments Thrown {M} msg mem.

Module DeepCopyFad.

(** Accessors of a view, read off its mapping. *)
Definition data (v : DynRankView) : Z := m_handle (m_map v).
Definition rank (v : DynRankView) : Z := m_rank v.
Definition dimension_ (k : nat) (v : DynRankView) : Z :=
  extent (m_dim (m_offset (m_map v))) k.
Definition stride_ (k : nat) (v : DynRankView) : Z :=
  stride_slot (m_stride (m_offset (m_map v))) k.

Definition same_dimensions (dst src : DynRankView) : bool :=
  (dimension_ 0 dst =? dimension_ 0 src)
  && (dimension_ 1 dst =? dimension_ 1 src)
  && (dimension_ 2 dst =? dimension_ 2 src)
  && (dimension_ 3 dst =? dimension_ 3 src)
  && (dimension_ 4 dst =? dimension_ 4 src)
  && (dimension_ 5 dst =? dimension_ 5 src)
  && (dimension_ 6 dst =? dimension_ 6 src)
  && (dimension_ 7 dst =? dimension_ 7 src).

Definition same_strides (dst src : DynRankView) : bool :=
  (stride_ 0 dst =? stride_ 0 src)
  && (stride_ 1 dst =? stride_ 1 src)
  && (stride_ 2 dst =? stride_ 2 src)
  && (stride_ 3 dst =? stride_ 3 src)
  && (stride_ 4 dst =? stride_ 4 src)
  && (stride_ 5 dst =? stride_ 5 src)
  && (stride_ 6 dst =? stride_ 6 src)
  && (stride_ 7 dst =? stride_ 7 src).

(** First branch: both views have rank 0. *)
Definition both_rank_0 (dst src : DynRankView) : bool :=
  (rank src =? 0) && (rank dst =? 0).

(** Second branch: same type, equal [LayoutLeft] or [LayoutRight] layout
    (or both of rank 1), equal span and dimensions. *)
Definition bytewise_left_right (C : CopyCore) (DstTraits SrcTraits : ViewTraits)
    (dst src : DynRankView) : bool :=
  ValueType_eqb (value_type DstTraits)
                (non_const_value_type (value_type SrcTraits))
  && ((array_layout_eqb (array_layout_of DstTraits) (array_layout_of SrcTraits)
       && (array_layout_eqb (array_layout_of DstTraits) LayoutLeft
           || array_layout_eqb (array_layout_of DstTraits) LayoutRight))
      || ((rank dst =? 1) && (rank src =? 1)))
  && (span C DstTraits dst =? span C SrcTraits src)
  && same_dimensions dst src.

(** Third branch: the same for [LayoutStride], with equal strides. *)
Definition bytewise_stride (C : CopyCore) (DstTraits SrcTraits : ViewTraits)
    (dst src : DynRankView) : bool :=
  ValueType_eqb (value_type DstTraits)
                (non_const_value_type (value_type SrcTraits))
  && ((array_layout_eqb (array_layout_of DstTraits) (array_layout_of SrcTraits)
       && array_layout_eqb (array_layout_of DstTraits) LayoutStride)
      || ((rank dst =? 1) && (rank src =? 1)))
  && (span C DstTraits dst =? span C SrcTraits src)
  && same_dimensions dst src
  && same_strides dst src.

Definition temporary_allocation_message : string :=
  "deep_copy given views that would require a temporary allocation".

Definition deep_copy (C : CopyCore) (DstTraits SrcTraits : ViewTraits)
    (dst src : DynRankView) (mem : Mem C) : outcome (Mem C) :=
  if negb (ValueType_eqb (value_type DstTraits)
                         (non_const_value_type (value_type DstTraits)))
  then Rejected "deep_copy requires non-const destination type"
  else
    let dst_memory_space := memory_space DstTraits in
    let src_memory_space := memory_space SrcTraits in
    let DstExecCanAccessSrc :=
      VerifyExecutionCanAccessMemorySpace C
        (execution_memory_space DstTraits) src_memory_space in
    let SrcExecCanAccessDst :=
      VerifyExecutionCanAccessMemorySpace C
        (execution_memory_space SrcTraits) dst_memory_space in
    if neq (data dst) (data src) then
      if both_rank_0 dst src then
        Returned (DeepCopy C dst_memory_space src_memory_space
                    (data dst) (data src) (sizeof_value_type DstTraits) mem)
      else if bytewise_left_right C DstTraits SrcTraits dst src then
        let nbytes := SizeT.mul (sizeof_inner_value_type DstTraits)
                                (span C DstTraits dst) in
        Returned (DeepCopy C dst_memory_space src_memory_space
                    (data dst) (data src) nbytes mem)
      else if bytewise_stride C DstTraits SrcTraits dst src then
        let nbytes := SizeT.mul (sizeof_inner_value_type DstTraits)
                                (span C DstTraits dst) in
        Returned (DeepCopy C dst_memory_space src_memory_space
                    (data dst) (data src) nbytes mem)
      else if DstExecCanAccessSrc then
        Returned (DynRankViewRemap C DstTraits SrcTraits
                    (execution_space DstTraits) dst src mem)
      else if SrcExecCanAccessDst then
        Returned (DynRankViewRemap C DstTraits SrcTraits
                    (execution_space SrcTraits) dst src mem)
      else Thrown temporary_allocation_message mem
    else Returned mem.

End DeepCopyFad.

(** ** [createView] and the traits of dynamic-rank views of Fad *)

(** Modelled from the spec: [typename ViewType::array_layout l( N0, .., N7 )].
    For [LayoutLeft] and [LayoutRight] the eight arguments are the extents.
    The constructor of [LayoutStride], declared in the Kokkos core, takes
    extents and strides in turn, so eight arguments fill four slots and the
    others take the default argument [dflt]. *)
Definition array_layout_ctor (kind : array_layout) (dflt : Z)
    (N0 N1 N2 N3 N4 N5 N6 N7 : Z) : Layout :=
  match kind with
  | LayoutStride =>
      LayoutStride_ctor N0 N1 N2 N3 N4 N5 N6 N7
                        dflt dflt dflt dflt dflt dflt dflt dflt
  | _ => Layout_ctor kind N0 N1 N2 N3 N4 N5 N6 N7
  end.

(** [createView]: the view is built from the eight extents of the layout
    that [createLayout] returns.  [ViewType_ctor] is the constructor of the
    view type, which takes the argument [arg] and eight extents. *)
Definition createView {ViewType ViewArg : Type}
    (ViewType_ctor : ViewArg -> Z -> Z -> Z -> Z -> Z -> Z -> Z -> Z -> ViewType)
    (kind : array_layout) (dflt : Z) (arg : ViewArg)
    (N0 N1 N2 N3 N4 N5 N6 N7 : Z) : ViewType :=
  let l := array_layout_ctor kind dflt N0 N1 N2 N3 N4 N5 N6 N7 in
  let l_fad := DynRankDimTraits.createLayout l in
  ViewType_ctor arg
    (dimension l_fad !!! 0%nat) (dimension l_fad !!! 1%nat)
    (dimension l_fad !!! 2%nat) (dimension l_fad !!! 3%nat)
    (dimension l_fad !!! 4%nat) (dimension l_fad !!! 5%nat)
    (dimension l_fad !!! 6%nat) (dimension l_fad !!! 7%nat).

(** [is_dynrankview_fad] and [is_dynrankview_fad_contiguous]: the primary
    templates are false; the specializations for [DynRankView] look at the
    specialization of the view. *)
Definition is_dynrankview_fad (is_dyn_rank_view : bool) (T : ViewTraits)
  : bool :=
  if is_dyn_rank_view
  then specialize_eqb (specialize_of T) ViewSpecializeSacadoFad
       || specialize_eqb (specialize_of T) ViewSpecializeSacadoFadContiguous
  else false.

Definition is_dynrankview_fad_contiguous (is_dyn_rank_view : bool)
    (T : ViewTraits) : bool :=
  if is_dyn_rank_view
  then specialize_eqb (specialize_of T) ViewSpecializeSacadoFadContiguous
  else false.

(** ** Vocabulary of the statements *)

(** The position of the last slot of [dims] that is specified, 0 when none
    is. *)
Definition last_specified (dims : list Z) : nat :=
  list_max (imap (fun i n => if DynRankDimTraits.specified n then i else 0%nat)
                 dims).

(** The product of the extents of a layout. *)
Definition extent_product (dims : list Z) : Z := fold_right Z.mul 1 dims.

(** The eight extents and the eight strides of a descriptor, in order. *)
Definition extents_of (d : ViewDimension) : list Z :=
  [N0 d; N1 d; N2 d; N3 d; N4 d; N5 d; N6 d; N7 d].

Definition strides_of (s : ViewStride) : list Z :=
  [S0 s; S1 s; S2 s; S3 s; S4 s; S5 s; S6 s; S7 s].

(** Two descriptors agree on the slots [0 .. R]. *)
Definition agree_upto (R : nat) (a b : ViewOffset) : Prop :=
  forall i : nat, (i <= R)%nat ->
    extent (m_dim a) i = extent (m_dim b) i
    /\ stride_slot (m_stride a) i = stride_slot (m_stride b) i.

(** A slicing argument that is a range. *)
Definition is_range (a : SliceArg) : bool :=
  match a with
  | Index _ => false
  | Range _ _ | ALL => true
  end.

(** The number of ranges among the first [n] slicing arguments. *)
Definition range_count (n : nat) (args : list SliceArg) : nat :=
  length (List.filter is_range (take n args)).

(** ** Calls with a static derivative width, and aliased calls *)

(** Modelled from the spec: [ViewDimension<..,FadStaticDim>], declared in the
    Kokkos core, holds a nonzero static extent as a constant of the type.  In
    [subview] the source of the rule of rank [R] is a [ViewOffset] over
    [ViewDimension<0,..,0,FadStaticDim>] with [R] zeros, and the destination
    is the offset of a dynamic-rank view of the same Fad type, whose slot 7
    is the derivative dimension.  So with a nonzero static width both slot
    [R] of the source and slot 7 of the destination hold that width. *)
Definition static_extent_typed (StaticDim : Z) (R : nat)
    (dst src : ViewOffset) : Prop :=
  StaticDim <> 0 ->
  extent (m_dim src) R = StaticDim /\ N7 (m_dim dst) = StaticDim.

(** [AssignFadDimStride<R,StaticDim>::eval( x, x )]: the destination is the
    source object itself, so every read of the source sees the assignments
    made before it. *)

Definition AssignFadDimStride_0_aliased (StaticDim : Z) (x : ViewOffset)
  : ViewOffset :=
  run [ upd_stride (set_S0 0)
      ; upd_stride (set_S1 0)
      ; upd_stride (set_S2 0)
      ; upd_stride (set_S3 0)
      ; upd_stride (set_S4 0)
      ; upd_stride (set_S5 0)
      ; upd_stride (set_S6 0)
      ; (fun x => upd_stride (set_S7 (S0 (m_stride x))) x)
      ; upd_dim (set_N0 1)
      ; upd_dim (set_N1 1)
      ; upd_dim (set_N2 1)
      ; upd_dim (set_N3 1)
      ; upd_dim (set_N4 1)
      ; upd_dim (set_N5 1)
      ; upd_dim (set_N6 1)
      ; (fun x => upd_dim (AssignDim7_eval StaticDim (N0 (m_dim x))) x) ] x.

Definition AssignFadDimStride_1_aliased (StaticDim : Z) (x : ViewOffset)
  : ViewOffset :=
  run [ (fun x => upd_stride (set_S0 (S0 (m_stride x))) x)
      ; upd_stride (set_S1 0)
      ; upd_stride (set_S2 0)
      ; upd_stride (set_S3 0)
      ; upd_stride (set_S4 0)
      ; upd_stride (set_S5 0)
      ; upd_stride (set_S6 0)
      ; (fun x => upd_stride (set_S7 (S1 (m_stride x))) x)
      ; (fun x => upd_dim (set_N0 (N0 (m_dim x))) x)
      ; upd_dim (set_N1 1)
      ; upd_dim (set_N2 1)
      ; upd_dim (set_N3 1)
      ; upd_dim (set_N4 1)
      ; upd_dim (set_N5 1)
      ; upd_dim (set_N6 1)
      ; (fun x => upd_dim (AssignDim7_eval StaticDim (N1 (m_dim x))) x) ] x.

Definition AssignFadDimStride_2_aliased (StaticDim : Z) (x : ViewOffset)
  : ViewOffset :=
  run [ (fun x => upd_stride (set_S0 (S0 (m_stride x))) x)
      ; (fun x => upd_stride (set_S1 (S1 (m_stride x))) x)
      ; upd_stride (set_S2 0)
      ; upd_stride (set_S3 0)
      ; upd_stride (set_S4 0)
      ; upd_stride (set_S5 0)
      ; upd_stride (set_S6 0)
      ; (fun x => upd_stride (set_S7 (S2 (m_stride x))) x)
      ; (fun x => upd_dim (set_N0 (N0 (m_dim x))) x)
      ; (fun x => upd_dim (set_N1 (N1 (m_dim x))) x)
      ; upd_dim (set_N2 1)
      ; upd_dim (set_N3 1)
      ; upd_dim (set_N4 1)
      ; upd_dim (set_N5 1)
      ; upd_dim (set_N6 1)
      ; (fun x => upd_dim (AssignDim7_eval StaticDim (N2 (m_dim x))) x) ] x.

Definition AssignFadDimStride_3_aliased (StaticDim : Z) (x : ViewOffset)
  : ViewOffset :=
  run [ (fun x => upd_stride (set_S0 (S0 (m_stride x))) x)
      ; (fun x => upd_stride (set_S1 (S1 (m_stride x))) x)
      ; (fun x => upd_stride (set_S2 (S2 (m_stride x))) x)
      ; upd_stride (set_S3 0)
      ; upd_stride (set_S4 0)
      ; upd_stride (set_S5 0)
      ; upd_stride (set_S6 0)
      ; (fun x => upd_stride (set_S7 (S3 (m_stride x))) x)
      ; (fun x => upd_dim (set_N0 (N0 (m_dim x))) x)
      ; (fun x => upd_dim (set_N1 (N1 (m_dim x))) x)
      ; (fun x => upd_dim (set_N2 (N2 (m_dim x))) x)
      ; upd_dim (set_N3 1)
      ; upd_dim (set_N4 1)
      ; upd_dim (set_N5 1)
      ; upd_dim (set_N6 1)
      ; (fun x => upd_dim (AssignDim7_eval StaticDim (N3 (m_dim x))) x) ] x.

Definition AssignFadDimStride_4_aliased (StaticDim : Z) (x : ViewOffset)
  : ViewOffset :=
  run [ (fun x => upd_stride (set_S0 (S0 (m_stride x))) x)
      ; (fun x => upd_stride (set_S1 (S1 (m_stride x))) x)
      ; (fun x => upd_stride (set_S2 (S2 (m_stride x))) x)
      ; (fun x => upd_stride (set_S3 (S3 (m_stride x))) x)
      ; upd_stride (set_S4 0)
      ; upd_stride (set_S5 0)
      ; upd_stride (set_S6 0)
      ; (fun x => upd_stride (set_S7 (S4 (m_stride x))) x)
      ; (fun x => upd_dim (set_N0 (N0 (m_dim x))) x)
      ; (fun x => upd_dim (set_N1 (N1 (m_dim x))) x)
      ; (fun x => upd_dim (set_N2 (N2 (m_dim x))) x)
      ; (fun x => upd_dim (set_N3 (N3 (m_dim x))) x)
      ; upd_dim (set_N4 1)
      ; upd_dim (set_N5 1)
      ; upd_dim (set_N6 1)
      ; (fun x => upd_dim (AssignDim7_eval StaticDim (N4 (m_dim x))) x) ] x.

Definition AssignFadDimStride_5_aliased (StaticDim : Z) (x : ViewOffset)
  : ViewOffset :=
  run [ (fun x => upd_stride (set_S0 (S0 (m_stride x))) x)
      ; (fun x => upd_stride (set_S1 (S1 (m_stride x))) x)
      ; (fun x => upd_stride (set_S2 (S2 (m_stride x))) x)
      ; (fun x => upd_stride (set_S3 (S3 (m_stride x))) x)
      ; (fun x => upd_stride (set_S4 (S4 (m_stride x))) x)
      ; upd_stride (set_S5 0)
      ; upd_stride (set_S6 0)
      ; (fun x => upd_stride (set_S7 (S5 (m_stride x))) x)
      ; (fun x => upd_dim (set_N0 (N0 (m_dim x))) x)
      ; (fun x => upd_dim (set_N1 (N1 (m_dim x))) x)
      ; (fun x => upd_dim (set_N2 (N2 (m_dim x))) x)
      ; (fun x => upd_dim (set_N3 (N3 (m_dim x))) x)
      ; (fun x => upd_dim (set_N4 (N4 (m_dim x))) x)
      ; upd_dim (set_N5 1)
      ; upd_dim (set_N6 1)
      ; (fun x => upd_dim (AssignDim7_eval StaticDim (N5 (m_dim x))) x) ] x.

Definition AssignFadDimStride_6_aliased (StaticDim : Z) (x : ViewOffset)
  : ViewOffset :=
  run [ (fun x => upd_stride (set_S0 (S0 (m_stride x))) x)
      ; (fun x => upd_stride (set_S1 (S1 (m_stride x))) x)
      ; (fun x => upd_stride (set_S2 (S2 (m_stride x))) x)
      ; (fun x => upd_stride (set_S3 (S3 (m_stride x))) x)
      ; (fun x => upd_stride (set_S4 (S4 (m_stride x))) x)
      ; (fun x => upd_stride (set_S5 (S5 (m_stride x))) x)
      ; upd_stride (set_S6 0)
      ; (fun x => upd_stride (set_S7 (S6 (m_stride x))) x)
      ; (fun x => upd_dim (set_N0 (N0 (m_dim x))) x)
      ; (fun x => upd_dim (set_N1 (N1 (m_dim x))) x)
      ; (fun x => upd_dim (set_N2 (N2 (m_dim x))) x)
      ; (fun x => upd_dim (set_N3 (N3 (m_dim x))) x)
      ; (fun x => upd_dim (set_N4 (N4 (m_dim x))) x)
      ; (fun x => upd_dim (set_N5 (N5 (m_dim x))) x)
      ; upd_dim (set_N6 1)
      ; (fun x => upd_dim (AssignDim7_eval StaticDim (N6 (m_dim x))) x) ] x.

Definition AssignFadDimStride_7_aliased (StaticDim : Z) (x : ViewOffset)
  : ViewOffset :=
  run [ (fun x => upd_stride (set_S0 (S0 (m_stride x))) x)
      ; (fun x => upd_stride (set_S1 (S1 (m_stride x))) x)
      ; (fun x => upd_stride (set_S2 (S2 (m_stride x))) x)
      ; (fun x => upd_stride (set_S3 (S3 (m_stride x))) x)
      ; (fun x => upd_stride (set_S4 (S4 (m_stride x))) x)
      ; (fun x => upd_stride (set_S5 (S5 (m_stride x))) x)
      ; (fun x => upd_stride (set_S6 (S6 (m_stride x))) x)
      ; (fun x => upd_stride (set_S7 (S7 (m_stride x))) x)
      ; (fun x => upd_dim (set_N0 (N0 (m_dim x))) x)
      ; (fun x => upd_dim (set_N1 (N1 (m_dim x))) x)
      ; (fun x => upd_dim (set_N2 (N2 (m_dim x))) x)
      ; (fun x => upd_dim (set_N3 (N3 (m_dim x))) x)
      ; (fun x => upd_dim (set_N4 (N4 (m_dim x))) x)
      ; (fun x => upd_dim (set_N5 (N5 (m_dim x))) x)
      ; (fun x => upd_dim (set_N6 (N6 (m_dim x))) x)
      ; (fun x => upd_dim (AssignDim7_eval StaticDim (N7 (m_dim x))) x) ] x.

Definition AssignFadDimStride_eval_aliased (R : nat) (StaticDim : Z)
    (x : ViewOffset) : option ViewOffset :=
  match R with
  | 0%nat => Some (AssignFadDimStride_0_aliased StaticDim x)
  | 1%nat => Some (AssignFadDimStride_1_aliased StaticDim x)
  | 2%nat => Some (AssignFadDimStride_2_aliased StaticDim x)
  | 3%nat => Some (AssignFadDimStride_3_aliased StaticDim x)
  | 4%nat => Some (AssignFadDimStride_4_aliased StaticDim x)
  | 5%nat => Some (AssignFadDimStride_5_aliased StaticDim x)
  | 6%nat => Some (AssignFadDimStride_6_aliased StaticDim x)
  | 7%nat => Some (AssignFadDimStride_7_aliased StaticDim x)
  | _ => None
  end.

(** ** Instances used in the examples *)

Module Examples.

(** A view type of [SFad<double,2>]: three scalars per element. *)
Definition sfad_traits : ViewTraits :=
  {| value_type := {| type_name := "SFad<double,2>"; is_const := false |}
   ; array_layout_of := LayoutRight
   ; specialize_of := ViewSpecializeSacadoFad
   ; memory_space := 0
   ; execution_space := 0
   ; execution_memory_space := 0
   ; rank_of := 1
   ; FadStaticDimension := 3
   ; sizeof_value_type := 24
   ; sizeof_inner_value_type := 8 |}.

(** A view type of [DFad<double>]: the derivative width is dynamic. *)
Definition dfad_traits : ViewTraits :=
  {| value_type := {| type_name := "DFad<double>"; is_const := false |}
   ; array_layout_of := LayoutRight
   ; specialize_of := ViewSpecializeSacadoFad
   ; memory_space := 0
   ; execution_space := 0
   ; execution_memory_space := 0
   ; rank_of := 1
   ; FadStaticDimension := 0
   ; sizeof_value_type := 24
   ; sizeof_inner_value_type := 8 |}.

(** The same element types in an ordinary view. *)
Definition ordinary_traits (T : ViewTraits) : ViewTraits :=
  {| value_type := value_type T
   ; array_layout_of := array_layout_of T
   ; specialize_of := ViewSpecializeVoid
   ; memory_space := memory_space T
   ; execution_space := execution_space T
   ; execution_memory_space := execution_memory_space T
   ; rank_of := rank_of T
   ; FadStaticDimension := 0
   ; sizeof_value_type := sizeof_value_type T
   ; sizeof_inner_value_type := sizeof_inner_value_type T |}.

(** The same view type in another memory space, with its own execution
    space. *)
Definition in_space (sp : nat) (T : ViewTraits) : ViewTraits :=
  {| value_type := value_type T
   ; array_layout_of := array_layout_of T
   ; specialize_of := specialize_of T
   ; memory_space := sp
   ; execution_space := sp
   ; execution_memory_space := sp
   ; rank_of := rank_of T
   ; FadStaticDimension := FadStaticDimension T
   ; sizeof_value_type := sizeof_value_type T
   ; sizeof_inner_value_type := sizeof_inner_value_type T |}.

(** A rank-1 view of 4 elements with 3 scalars each, at address [addr]. *)
Definition map_4x3 (addr : Z) : ViewMap :=
  {| m_handle := addr
   ; m_offset := mkViewOffset (mkViewDimension 4 3 1 1 1 1 1 1)
                              (mkViewStride 3 1 0 0 0 0 0 0)
   ; m_fad_size := 2
   ; m_fad_stride := 1 |}.

Definition view_4x3 (addr : Z) : View :=
  {| view_track := 1; view_map := map_4x3 addr |}.

Definition dyn_4x3 (addr : Z) : DynRankView :=
  {| m_track := 1
   ; m_map :=
       {| m_handle := addr
        ; m_offset := mkViewOffset (mkViewDimension 4 1 1 1 1 1 1 3)
                                   (mkViewStride 3 0 0 0 0 0 0 1)
        ; m_fad_size := 2
        ; m_fad_stride := 1 |}
   ; m_rank := 1 |}.

(** A default-constructed dynamic-rank view whose slot 7 is the trivial
    extent 1. *)
Definition empty_view : DynRankView :=
  {| m_track := 0
   ; m_map :=
       {| m_handle := 0
        ; m_offset := mkViewOffset (mkViewDimension 0 0 0 0 0 0 0 1)
                                   (mkViewStride 0 0 0 0 0 0 0 0)
        ; m_fad_size := 0
        ; m_fad_stride := 0 |}
   ; m_rank := 0 |}.

(** A core in which a subview keeps the descriptor of its source and starts
    at the first index of every slicing argument. *)
Definition first_index (a : SliceArg) : Z :=
  match a with
  | Index i => i
  | Range b _ => b
  | ALL => 0
  end.

Definition subview_core : SubviewCore :=
  {| SubviewExtents := list SliceArg
   ; SubviewExtents_ctor := fun _ args => args
   ; domain_offset := fun e i => first_index (default (Index 0) (e !! i))
   ; ViewOffset_ctor := fun o _ => o
   ; offset_at := fun o idx =>
       fold_right Z.add 0
         (zip_with Z.mul idx (map (stride_slot (m_stride o)) (seq 0 8)))
   ; DynRankView_default := empty_view |}.

(** A core whose memory only counts the bytes and elements moved, in which
    an execution space reaches its own memory space only. *)
Definition copy_core : CopyCore :=
  {| Mem := Z
   ; VerifyExecutionCanAccessMemorySpace := Nat.eqb
   ; span := fun _ v => dim_product (m_dim (m_offset (m_map v)))
   ; DeepCopy := fun _ _ _ _ nbytes mem => mem + nbytes
   ; DynRankViewRemap := fun _ _ _ _ _ mem => mem + 1 |}.

End Examples.

(** * Properties *)

(** Case analysis on a rank and on a slot index below 8. *)
Ltac rank_cases R :=
  destruct R as [|[|[|[|[|[|[|[|R]]]]]]]]; [ .. | lia ].

Ltac slot_cases i :=
  destruct i as [|[|[|[|[|[|[|[|i]]]]]]]]; try lia.

(** ** Rank computation *)

Section RankFacts.

Import DynRankDimTraits.

Lemma neq_unspecified_spec (n : Z) :
  reflect (n = unspecified) (n =? unspecified).
Proof. apply Z.eqb_spec. Qed.

(** The rank in terms of the last specified slot: the code looks for the
    highest slot that does not hold the sentinel. *)
Lemma computeRank_last_specified (n0 n1 n2 n3 n4 n5 n6 n7 : Z) :
  computeRank n0 n1 n2 n3 n4 n5 n6 n7 =
  if specified n7 then 7 else if specified n6 then 6
  else if specified n5 then 5 else if specified n4 then 4
  else if specified n3 then 3 else if specified n2 then 2
  else if specified n1 then 1 else 0.
Proof.
  unfold computeRank, specified, neq.
  destruct (n7 =? unspecified), (n6 =? unspecified), (n5 =? unspecified),
    (n4 =? unspecified), (n3 =? unspecified), (n2 =? unspecified),
    (n1 =? unspecified), (n0 =? unspecified); reflexivity.
Qed.

Lemma computeRank_range (n0 n1 n2 n3 n4 n5 n6 n7 : Z) :
  0 <= computeRank n0 n1 n2 n3 n4 n5 n6 n7 <= 7.
Proof.
  rewrite computeRank_last_specified.
  repeat match goal with |- context [if ?b then _ else _] => destruct b end;
    lia.
Qed.

(** C1, as amended: with [k] leading specified slots followed by [8 - k]
    unspecified ones, [computeRank] returns [k - 1] for [k] from 1 to 8 and 0
    for [k = 0]; so no slot specified gives rank 0 and all eight specified
    give rank 7. *)
Theorem computeRank_leading_specified
    (n0 n1 n2 n3 n4 n5 n6 n7 : Z) (k : nat) :
  (k <= 8)%nat ->
  leading_specified k [n0; n1; n2; n3; n4; n5; n6; n7] = true ->
  computeRank n0 n1 n2 n3 n4 n5 n6 n7 = Z.of_nat (Nat.pred k).
Proof.
  intros Hk H. rewrite computeRank_last_specified.
  destruct k as [|[|[|[|[|[|[|[|[|k]]]]]]]]]; [ .. | lia ];
    unfold leading_specified in H; cbn in H; revert H;
    destruct (specified n0), (specified n1), (specified n2), (specified n3),
      (specified n4), (specified n5), (specified n6), (specified n7);
    cbn; intros H; try discriminate H; reflexivity.
Qed.

Lemma computeRank_leading_specified_witness :
  (2 <= 8)%nat
  /\ leading_specified 2
       [4; 3; unspecified; unspecified; unspecified; unspecified;
        unspecified; unspecified] = true
  /\ computeRank 4 3 unspecified unspecified unspecified unspecified
                 unspecified unspecified = 1.
Proof.
  split; [ lia | split; [ reflexivity | ] ].
  apply (computeRank_leading_specified 4 3 unspecified unspecified
           unspecified unspecified unspecified unspecified 2);
    [ lia | reflexivity ].
Defined.

(** C1 as stated fails: one leading specified slot gives rank 0, not 1. *)
Lemma computeRank_one_leading_slot :
  leading_specified 1
    [5; unspecified; unspecified; unspecified; unspecified; unspecified;
     unspecified; unspecified] = true
  /\ computeRank 5 unspecified unspecified unspecified unspecified
                 unspecified unspecified unspecified <> 1.
Proof. split; [ reflexivity | discriminate ]. Qed.

End RankFacts.

(** ** Layout construction *)

Section LayoutFacts.

Import DynRankDimTraits.

Lemma to_unsigned_small (z : Z) :
  0 <= z <= 7 -> SizeT.to_unsigned z = z.
Proof.
  intros H. unfold SizeT.to_unsigned. apply Z.mod_small.
  change (2 ^ 32) with 4294967296. lia.
Qed.

Lemma fad_dim_of_rank (layout : Layout) (p : nat) :
  computeRank_layout layout = Z.of_nat p -> (p <= 7)%nat ->
  Z.to_nat (SizeT.to_unsigned (computeRank_layout layout)) = p.
Proof.
  intros Hp Hle. rewrite Hp, to_unsigned_small by lia. apply Nat2Z.id.
Qed.

(** The dimensions [createLayout] returns for a [LayoutLeft] or
    [LayoutRight] request whose rank is [p]. *)
Lemma createLayout_LR_dimension (layout : Layout) (p : nat) :
  computeRank_layout layout = Z.of_nat p -> (p <= 7)%nat ->
  dimension (createLayout_LR layout) =
  <[7%nat := dimension layout !!! p]>
    (<[p := 1]> [dim_or_1 layout 0; dim_or_1 layout 1; dim_or_1 layout 2;
                 dim_or_1 layout 3; dim_or_1 layout 4; dim_or_1 layout 5;
                 dim_or_1 layout 6; dim_or_1 layout 7]).
Proof.
  intros Hp Hle. unfold createLayout_LR.
  rewrite (fad_dim_of_rank layout p Hp Hle). reflexivity.
Qed.

Lemma createLayout_Stride_dimension (layout : Layout) (p : nat) :
  computeRank_layout layout = Z.of_nat p -> (p <= 7)%nat ->
  dimension (createLayout_Stride layout) =
  <[7%nat := dimension layout !!! p]>
    (<[p := 1]> [dim_or_1 layout 0; dim_or_1 layout 1; dim_or_1 layout 2;
                 dim_or_1 layout 3; dim_or_1 layout 4; dim_or_1 layout 5;
                 dim_or_1 layout 6; dim_or_1 layout 7]).
Proof.
  intros Hp Hle. unfold createLayout_Stride.
  rewrite (fad_dim_of_rank layout p Hp Hle). reflexivity.
Qed.

Lemma dim_or_1_unspecified (layout : Layout) (i : nat) :
  dimension layout !!! i = unspecified -> dim_or_1 layout i = 1.
Proof. intros H. unfold dim_or_1. rewrite H. reflexivity. Qed.

Lemma dim_or_1_specified (layout : Layout) (i : nat) :
  dimension layout !!! i <> unspecified ->
  dim_or_1 layout i = dimension layout !!! i.
Proof.
  intros H. unfold dim_or_1, neq.
  destruct (Z.eqb_spec (dimension layout !!! i) unspecified); [ easy | ].
  reflexivity.
Qed.

(** C3: for a row-major or column-major request whose AD slot, the rank that
    [computeRank] returns, is [p <= 6], [createLayout] puts the extent of
    slot [p] in slot 7, sets slot [p] to 1, and sets every other slot that
    was unspecified to 1 (the other specified slots keep their extent). *)
Theorem createLayout_moves_fad_dimension
    (kind : array_layout) (n0 n1 n2 n3 n4 n5 n6 n7 : Z) (p : nat) :
  kind = LayoutLeft \/ kind = LayoutRight ->
  computeRank_layout (Layout_ctor kind n0 n1 n2 n3 n4 n5 n6 n7) = Z.of_nat p ->
  (p <= 6)%nat ->
  let layout := Layout_ctor kind n0 n1 n2 n3 n4 n5 n6 n7 in
  let l := createLayout layout in
  dimension l !!! 7%nat = dimension layout !!! p
  /\ dimension l !!! p = 1
  /\ (forall i : nat, (i < 7)%nat -> i <> p ->
        dimension layout !!! i = unspecified -> dimension l !!! i = 1)
  /\ (forall i : nat, (i < 7)%nat -> i <> p ->
        dimension layout !!! i <> unspecified ->
        dimension l !!! i = dimension layout !!! i)
  /\ layout_kind l = kind.
Proof.
  intros Hkind Hp Hle layout l.
  assert (Hl : dimension l =
          <[7%nat := dimension layout !!! p]>
            (<[p := 1]> [dim_or_1 layout 0; dim_or_1 layout 1;
                         dim_or_1 layout 2; dim_or_1 layout 3;
                         dim_or_1 layout 4; dim_or_1 layout 5;
                         dim_or_1 layout 6; dim_or_1 layout 7])).
  { subst l. unfold createLayout.
    replace (layout_kind layout) with kind by reflexivity.
    destruct Hkind as [-> | ->];
      apply createLayout_LR_dimension; [ exact Hp | lia | exact Hp | lia ]. }
  assert (Hk : layout_kind l = kind).
  { subst l. unfold createLayout.
    replace (layout_kind layout) with kind by reflexivity.
    destruct Hkind as [-> | ->]; reflexivity. }
  rewrite Hl. clear Hl Hp.
  destruct p as [|[|[|[|[|[|[|p]]]]]]]; [ .. | lia ];
    (split; [ reflexivity | split; [ reflexivity | split; [ | split ] ] ];
     [ intros i Hi Hne Hu;
       destruct i as [|[|[|[|[|[|[|i]]]]]]]; try lia; try congruence;
       cbn; apply dim_or_1_unspecified; exact Hu
     | intros i Hi Hne Hu;
       destruct i as [|[|[|[|[|[|[|i]]]]]]]; try lia; try congruence;
       cbn; apply dim_or_1_specified; exact Hu
     | exact Hk ]).
Qed.

Lemma createLayout_moves_fad_dimension_witness :
  let layout :=
    Layout_ctor LayoutRight 4 6 3 unspecified unspecified unspecified
                unspecified unspecified in
  computeRank_layout layout = 2
  /\ dimension (createLayout layout) = [4; 6; 1; 1; 1; 1; 1; 3]
  /\ dimension (createLayout layout) !!! 7%nat = dimension layout !!! 2%nat.
Proof.
  split; [ reflexivity | split; [ reflexivity | ] ].
  apply (createLayout_moves_fad_dimension LayoutRight 4 6 3
           unspecified unspecified unspecified unspecified unspecified 2);
    [ right; reflexivity | reflexivity | lia ].
Defined.

(** The rank of a request with some specified slot points at a specified
    slot: it is the position of the last one. *)
Lemma computeRank_points_at_specified (n0 n1 n2 n3 n4 n5 n6 n7 : Z) :
  existsb specified [n0; n1; n2; n3; n4; n5; n6; n7] = true ->
  exists p : nat,
    computeRank n0 n1 n2 n3 n4 n5 n6 n7 = Z.of_nat p /\ (p <= 7)%nat
    /\ specified ([n0; n1; n2; n3; n4; n5; n6; n7] !!! p) = true.
Proof.
  rewrite computeRank_last_specified. cbn [existsb].
  destruct (specified n7) eqn:E7; [ exists 7%nat; auto with lia | ].
  destruct (specified n6) eqn:E6; [ exists 6%nat; auto with lia | ].
  destruct (specified n5) eqn:E5; [ exists 5%nat; auto with lia | ].
  destruct (specified n4) eqn:E4; [ exists 4%nat; auto with lia | ].
  destruct (specified n3) eqn:E3; [ exists 3%nat; auto with lia | ].
  destruct (specified n2) eqn:E2; [ exists 2%nat; auto with lia | ].
  destruct (specified n1) eqn:E1; [ exists 1%nat; auto with lia | ].
  destruct (specified n0) eqn:E0; [ exists 0%nat; auto with lia | ].
  discriminate.
Qed.

Lemma specified_neq (n : Z) : specified n = true <-> n <> unspecified.
Proof.
  unfold specified, neq. destruct (Z.eqb_spec n unspecified); split;
    (congruence || easy).
Qed.

Lemma dim_or_1_neq_unspecified (layout : Layout) (i : nat) :
  dim_or_1 layout i <> unspecified.
Proof.
  unfold dim_or_1, neq.
  destruct (Z.eqb_spec (dimension layout !!! i) unspecified);
    [ discriminate | assumption ].
Qed.

(** C9, as amended: for a row-major or column-major request in which at
    least one slot is specified, every slot of the layout that [createLayout]
    returns holds a concrete extent: each slot below 7 that was unspecified
    has become 1, the other specified slots keep their extent, the AD slot
    [p], which is a specified one, has become 1 when it is below 7, and slot
    7 holds the extent of the AD slot; so no slot holds the sentinel. *)
Theorem createLayout_no_unspecified_slot
    (kind : array_layout) (n0 n1 n2 n3 n4 n5 n6 n7 : Z) :
  kind = LayoutLeft \/ kind = LayoutRight ->
  existsb specified [n0; n1; n2; n3; n4; n5; n6; n7] = true ->
  let layout := Layout_ctor kind n0 n1 n2 n3 n4 n5 n6 n7 in
  let l := createLayout layout in
  let p := Z.to_nat (computeRank_layout layout) in
  length (dimension l) = 8%nat
  /\ (forall i : nat, (i < 8)%nat -> dimension l !!! i <> unspecified)
  /\ (forall i : nat, (i < 7)%nat ->
        dimension layout !!! i = unspecified -> dimension l !!! i = 1)
  /\ (forall i : nat, (i < 7)%nat -> i <> p ->
        dimension layout !!! i <> unspecified ->
        dimension l !!! i = dimension layout !!! i)
  /\ ((p < 7)%nat -> dimension l !!! p = 1)
  /\ dimension l !!! 7%nat = dimension layout !!! p
  /\ dimension layout !!! p <> unspecified.
Proof.
  intros Hkind Hex layout l p.
  destruct (computeRank_points_at_specified _ _ _ _ _ _ _ _ Hex)
    as (q & Hq & Hle & Hsp).
  apply specified_neq in Hsp.
  assert (Hrank : computeRank_layout layout = Z.of_nat q) by exact Hq.
  assert (Hp : p = q) by (subst p; rewrite Hrank; apply Nat2Z.id).
  assert (Hl : dimension l =
          <[7%nat := dimension layout !!! q]>
            (<[q := 1]> [dim_or_1 layout 0; dim_or_1 layout 1;
                         dim_or_1 layout 2; dim_or_1 layout 3;
                         dim_or_1 layout 4; dim_or_1 layout 5;
                         dim_or_1 layout 6; dim_or_1 layout 7])).
  { subst l. unfold createLayout.
    replace (layout_kind layout) with kind by reflexivity.
    destruct Hkind as [-> | ->];
      apply createLayout_LR_dimension; assumption. }
  rewrite Hp, Hl. clear Hp Hl Hrank Hq p.
  change (dimension layout) with [n0; n1; n2; n3; n4; n5; n6; n7] in Hsp |- *.
  split; [ rewrite !length_insert; reflexivity | ].
  destruct q as [|[|[|[|[|[|[|[|q]]]]]]]]; [ .. | lia ]; cbn in Hsp;
    (split;
     [ intros i Hi; slot_cases i; cbn;
       solve [ apply dim_or_1_neq_unspecified | exact Hsp | discriminate ]
     | split;
       [ intros i Hi Hu; slot_cases i; cbn in Hu |- *;
         solve [ reflexivity | contradiction
               | apply dim_or_1_unspecified; exact Hu ]
       | split;
         [ intros i Hi Hne Hs; slot_cases i; try congruence; cbn in Hs |- *;
           apply dim_or_1_specified; exact Hs
         | split; [ intros Hlt; try lia; reflexivity
                  | split; [ reflexivity | exact Hsp ] ] ] ] ]).
Qed.

Lemma createLayout_no_unspecified_slot_witness :
  existsb specified
    [4; 6; 3; unspecified; unspecified; unspecified; unspecified;
     unspecified] = true
  /\ dimension (createLayout
       (Layout_ctor LayoutLeft 4 6 3 unspecified unspecified unspecified
          unspecified unspecified)) = [4; 6; 1; 1; 1; 1; 1; 3]
  /\ (forall i : nat, (i < 8)%nat ->
        dimension (createLayout
          (Layout_ctor LayoutLeft 4 6 3 unspecified unspecified unspecified
             unspecified unspecified)) !!! i <> unspecified)
  /\ dimension (createLayout
       (Layout_ctor LayoutLeft 4 6 3 unspecified unspecified unspecified
          unspecified unspecified)) !!! 7%nat = 3.
Proof.
  split; [ reflexivity | split; [ reflexivity | ] ].
  destruct (createLayout_no_unspecified_slot LayoutLeft 4 6 3 unspecified
              unspecified unspecified unspecified unspecified)
    as (_ & Hall & _ & _ & _ & H7 & _);
    [ left; reflexivity | reflexivity | ].
  split; [ exact Hall | exact H7 ].
Defined.

(** C9 as stated fails: when all eight slots are unspecified the rank is 0,
    the extent read at slot 0 is the sentinel, and it lands in slot 7. *)
Lemma createLayout_all_unspecified :
  dimension (createLayout
    (Layout_ctor LayoutRight unspecified unspecified unspecified unspecified
       unspecified unspecified unspecified unspecified))
  = [1; 1; 1; 1; 1; 1; 1; unspecified].
Proof. reflexivity. Qed.

(** [createLayout] for [LayoutStride] hands the eight strides of the request
    on, slot for slot. *)
Lemma createLayout_Stride_stride
    (n0 s0 n1 s1 n2 s2 n3 s3 n4 s4 n5 s5 n6 s6 n7 s7 : Z) :
  stride (createLayout
    (LayoutStride_ctor n0 s0 n1 s1 n2 s2 n3 s3 n4 s4 n5 s5 n6 s6 n7 s7))
  = [s0; s1; s2; s3; s4; s5; s6; s7].
Proof. reflexivity. Qed.

(** C4: on the request with extents (4, 3) and strides (3, 1), the AD slot
    is slot 1; its extent 3 is moved to slot 7 of the dimensions, while its
    stride 1 stays in slot 1 and stride slot 7 keeps the 0 of the request. *)
Lemma createLayout_Stride_leaves_fad_stride :
  let layout :=
    LayoutStride_ctor 4 3 3 1 unspecified 0 unspecified 0 unspecified 0
                      unspecified 0 unspecified 0 unspecified 0 in
  computeRank_layout layout = 1
  /\ dimension (createLayout layout) = [4; 1; 1; 1; 1; 1; 1; 3]
  /\ stride (createLayout layout) = [3; 1; 0; 0; 0; 0; 0; 0]
  /\ stride (createLayout layout) !!! 7%nat <> stride layout !!! 1%nat.
Proof. repeat split; discriminate. Qed.

End LayoutFacts.

(** ** The rank-indexed transfer rules *)

Section TransferFacts.

(** Every rank from 0 to 7 has a rule. *)
Lemma AssignFadDimStride_eval_total (R : nat) (sd : Z) (dst src : ViewOffset) :
  (R <= 7)%nat -> is_Some (AssignFadDimStride_eval R sd dst src).
Proof.
  intros H. destruct R as [|[|[|[|[|[|[|[|R]]]]]]]]; [ .. | lia ];
    eexists; reflexivity.
Qed.

Lemma AssignDim_eval_total (R : nat) (sd : Z) (dst src : ViewOffset) :
  (R <= 7)%nat -> is_Some (AssignDim_eval R sd dst src).
Proof.
  intros H. destruct R as [|[|[|[|[|[|[|[|R]]]]]]]]; [ .. | lia ];
    eexists; reflexivity.
Qed.

(** What the rule of rank [R] leaves in each slot, for any destination: it
    copies the source extents and strides of slots [0 .. R-1], sets the
    extents of slots [R .. 6] to 1 and their strides to 0, and sets stride
    slot 7 to the source stride of slot [R]; extent slot 7 is written with
    the source extent of slot [R] when the static width is 0, and not
    written otherwise. *)
Lemma AssignFadDimStride_eval_slots
    (R : nat) (StaticDim : Z) (dst src : ViewOffset) :
  (R <= 7)%nat ->
  exists out : ViewOffset,
    AssignFadDimStride_eval R StaticDim dst src = Some out
    /\ (forall i : nat, (i < R)%nat ->
          extent (m_dim out) i = extent (m_dim src) i)
    /\ (forall i : nat, (R <= i <= 6)%nat -> extent (m_dim out) i = 1)
    /\ extent (m_dim out) 7 =
         (if StaticDim =? 0 then extent (m_dim src) R
          else extent (m_dim dst) 7)
    /\ (forall i : nat, (i < R)%nat ->
          stride_slot (m_stride out) i = stride_slot (m_stride src) i)
    /\ (forall i : nat, (R <= i <= 6)%nat -> stride_slot (m_stride out) i = 0)
    /\ stride_slot (m_stride out) 7 = stride_slot (m_stride src) R.
Proof.
  intros HR. rank_cases R;
    (eexists; split; [ reflexivity | ];
     repeat split; try (intros i Hi; slot_cases i);
     cbn; unfold AssignDim7_eval; destruct (StaticDim =? 0); reflexivity).
Qed.

(** C2: for every rank [R] from 0 to 7 and every source, the rule of rank
    [R] leaves in the destination the source extents of slots [0 .. R-1],
    extent 1 in slots [R .. 6], the source extent of slot [R] in slot 7, the
    source strides of slots [0 .. R-1], stride 0 in slots [R .. 6] and the
    source stride of slot [R] in slot 7.  With a nonzero static width slot
    7 is not written: it holds the static extent already, as slot [R] of
    the source does. *)
Theorem AssignFadDimStride_eval_transfers
    (R : nat) (StaticDim : Z) (dst src : ViewOffset) :
  (R <= 7)%nat ->
  static_extent_typed StaticDim R dst src ->
  exists out : ViewOffset,
    AssignFadDimStride_eval R StaticDim dst src = Some out
    /\ (forall i : nat, (i < R)%nat ->
          extent (m_dim out) i = extent (m_dim src) i)
    /\ (forall i : nat, (R <= i <= 6)%nat -> extent (m_dim out) i = 1)
    /\ extent (m_dim out) 7 = extent (m_dim src) R
    /\ (forall i : nat, (i < R)%nat ->
          stride_slot (m_stride out) i = stride_slot (m_stride src) i)
    /\ (forall i : nat, (R <= i <= 6)%nat -> stride_slot (m_stride out) i = 0)
    /\ stride_slot (m_stride out) 7 = stride_slot (m_stride src) R.
Proof.
  intros HR Hty.
  destruct (AssignFadDimStride_eval_slots R StaticDim dst src HR)
    as (out & Hout & Hd & Hd1 & Hd7 & Hs & Hs0 & Hs7).
  exists out. repeat split; try assumption.
  rewrite Hd7. destruct (Z.eqb_spec StaticDim 0) as [E | E];
    [ reflexivity | ].
  destruct (Hty E) as [Hsrc Hdst]. cbn. rewrite Hsrc, Hdst. reflexivity.
Qed.

Lemma AssignFadDimStride_eval_transfers_witness :
  (1 <= 7)%nat
  /\ static_extent_typed 3 1
       (mkViewOffset (mkViewDimension 0 0 0 0 0 0 0 3)
                     (mkViewStride 0 0 0 0 0 0 0 0))
       (mkViewOffset (mkViewDimension 4 3 1 1 1 1 1 1)
                     (mkViewStride 3 1 0 0 0 0 0 0))
  /\ exists out : ViewOffset,
       AssignFadDimStride_eval 1 3
         (mkViewOffset (mkViewDimension 0 0 0 0 0 0 0 3)
                       (mkViewStride 0 0 0 0 0 0 0 0))
         (mkViewOffset (mkViewDimension 4 3 1 1 1 1 1 1)
                       (mkViewStride 3 1 0 0 0 0 0 0)) = Some out
       /\ out = mkViewOffset (mkViewDimension 4 1 1 1 1 1 1 3)
                             (mkViewStride 3 0 0 0 0 0 0 1)
       /\ extent (m_dim out) 7 = 3.
Proof.
  assert (Hty : static_extent_typed 3 1
            (mkViewOffset (mkViewDimension 0 0 0 0 0 0 0 3)
                          (mkViewStride 0 0 0 0 0 0 0 0))
            (mkViewOffset (mkViewDimension 4 3 1 1 1 1 1 1)
                          (mkViewStride 3 1 0 0 0 0 0 0)))
    by (intros _; split; reflexivity).
  split; [ lia | split; [ exact Hty | ] ].
  destruct (AssignFadDimStride_eval_transfers 1 3 _ _ ltac:(lia) Hty)
    as (out & Hout & _ & _ & H7 & _).
  exists out. split; [ exact Hout | split; [ | exact H7 ] ].
  injection Hout as <-. reflexivity.
Defined.

(** C6: for every rank, both families leave extent slot 7 of the destination
    unchanged when the static width is nonzero, and store the source extent
    of slot [R], the AD extent, in it when the static width is 0. *)
Theorem static_width_guards_slot_7
    (R : nat) (StaticDim : Z) (dst src : ViewOffset) :
  (R <= 7)%nat ->
  exists out out' : ViewOffset,
    AssignFadDimStride_eval R StaticDim dst src = Some out
    /\ AssignDim_eval R StaticDim dst src = Some out'
    /\ (StaticDim <> 0 ->
          N7 (m_dim out) = N7 (m_dim dst) /\ N7 (m_dim out') = N7 (m_dim dst))
    /\ (StaticDim = 0 ->
          N7 (m_dim out) = extent (m_dim src) R
          /\ N7 (m_dim out') = extent (m_dim src) R).
Proof.
  intros HR. rank_cases R;
    (do 2 eexists; split; [ reflexivity | split; [ reflexivity | ] ];
     cbn; unfold AssignDim7_eval, AssignFadDim7_eval;
     destruct (Z.eqb_spec StaticDim 0); split; intros H;
     try contradiction; split; reflexivity).
Qed.

Lemma static_width_guards_slot_7_witness :
  (1 <= 7)%nat
  /\ exists out out' : ViewOffset,
       AssignFadDimStride_eval 1 4
         (mkViewOffset (mkViewDimension 0 0 0 0 0 0 0 4)
                       (mkViewStride 0 0 0 0 0 0 0 0))
         (mkViewOffset (mkViewDimension 6 4 1 1 1 1 1 1)
                       (mkViewStride 4 1 0 0 0 0 0 0)) = Some out
       /\ AssignDim_eval 1 4
         (mkViewOffset (mkViewDimension 0 0 0 0 0 0 0 4)
                       (mkViewStride 0 0 0 0 0 0 0 0))
         (mkViewOffset (mkViewDimension 6 4 1 1 1 1 1 1)
                       (mkViewStride 4 1 0 0 0 0 0 0)) = Some out'
       /\ N7 (m_dim out) = 4 /\ N7 (m_dim out') = 4.
Proof.
  split; [ lia | ].
  destruct (static_width_guards_slot_7 1 4
              (mkViewOffset (mkViewDimension 0 0 0 0 0 0 0 4)
                            (mkViewStride 0 0 0 0 0 0 0 0))
              (mkViewOffset (mkViewDimension 6 4 1 1 1 1 1 1)
                            (mkViewStride 4 1 0 0 0 0 0 0)))
    as (out & out' & H1 & H2 & Hs & _); [ lia | ].
  exists out, out'. split; [ exact H1 | split; [ exact H2 | ] ].
  apply Hs. discriminate.
Defined.

(** C5, as amended: applying the rule of rank [R] again, to its own output
    taken as destination and as source, leaves the extents and strides of
    slots 0 to 6 unchanged; the rule of rank 7 leaves the whole output
    unchanged; for [R <= 6] the second application overwrites stride slot 7
    with 0 and, when the static width is 0, extent slot 7 with 1, so the
    output is unchanged exactly when the source stride of slot [R] was 0 and
    the static width is nonzero or the source extent of slot [R] was 1. *)
Theorem AssignFadDimStride_eval_reapplied
    (R : nat) (StaticDim : Z) (dst src : ViewOffset) :
  (R <= 7)%nat ->
  exists out out2 : ViewOffset,
    AssignFadDimStride_eval R StaticDim dst src = Some out
    /\ AssignFadDimStride_eval R StaticDim out out = Some out2
    /\ (forall i : nat, (i <= 6)%nat ->
          extent (m_dim out2) i = extent (m_dim out) i
          /\ stride_slot (m_stride out2) i = stride_slot (m_stride out) i)
    /\ (R = 7%nat -> out2 = out)
    /\ ((R < 7)%nat ->
          stride_slot (m_stride out2) 7 = 0
          /\ extent (m_dim out2) 7 =
               (if StaticDim =? 0 then 1 else extent (m_dim out) 7))
    /\ (out2 = out <->
          R = 7%nat
          \/ (stride_slot (m_stride src) R = 0
              /\ (StaticDim <> 0 \/ extent (m_dim src) R = 1))).
Proof.
  intros HR.
  destruct dst as [[d0 d1 d2 d3 d4 d5 d6 d7] [t0 t1 t2 t3 t4 t5 t6 t7]].
  destruct src as [[n0 n1 n2 n3 n4 n5 n6 n7] [s0 s1 s2 s3 s4 s5 s6 s7]].
  rank_cases R;
    (do 2 eexists; split; [ reflexivity | split; [ reflexivity | ] ];
     cbn; unfold AssignDim7_eval;
     destruct (Z.eqb_spec StaticDim 0) as [Hsd | Hsd]; cbn;
     (split; [ intros i Hi; slot_cases i; split; reflexivity | ]);
     (split; [ intros HR7; try discriminate HR7; reflexivity | ]);
     (split; [ intros HR7; try lia; split; reflexivity | ]);
     (split;
      [ intros Heq; try (injection Heq; intros; subst);
        solve [ left; reflexivity | right; auto ]
      | intros [HR7 | [Hs [Hd | Hd]]];
        try discriminate HR7; try contradiction; subst; reflexivity ])).
Qed.

Lemma AssignFadDimStride_eval_reapplied_witness :
  (7 <= 7)%nat
  /\ exists out : ViewOffset,
       AssignFadDimStride_eval 7 0
         (mkViewOffset (mkViewDimension 0 0 0 0 0 0 0 0)
                       (mkViewStride 0 0 0 0 0 0 0 0))
         (mkViewOffset (mkViewDimension 2 2 2 2 2 2 2 3)
                       (mkViewStride 192 96 48 24 12 6 3 1)) = Some out
       /\ AssignFadDimStride_eval 7 0 out out = Some out.
Proof.
  split; [ lia | ].
  destruct (AssignFadDimStride_eval_reapplied 7 0
              (mkViewOffset (mkViewDimension 0 0 0 0 0 0 0 0)
                            (mkViewStride 0 0 0 0 0 0 0 0))
              (mkViewOffset (mkViewDimension 2 2 2 2 2 2 2 3)
                            (mkViewStride 192 96 48 24 12 6 3 1)))
    as (out & out2 & H1 & H2 & _ & H7 & _); [ lia | ].
  exists out. split; [ exact H1 | ].
  rewrite H2. f_equal. apply H7. reflexivity.
Defined.

(** C5 as stated fails: the rule of rank 0 sends the source extent 5 and
    stride 1 of slot 0 to slot 7; applied again to its output it reads the
    collapsed slot 0 and overwrites slot 7 with extent 1 and stride 0. *)
Lemma AssignFadDimStride_rank_0_not_idempotent :
  exists out out2 : ViewOffset,
    AssignFadDimStride_eval 0 0
      (mkViewOffset (mkViewDimension 0 0 0 0 0 0 0 0)
                    (mkViewStride 0 0 0 0 0 0 0 0))
      (mkViewOffset (mkViewDimension 5 1 1 1 1 1 1 1)
                    (mkViewStride 1 0 0 0 0 0 0 0)) = Some out
    /\ AssignFadDimStride_eval 0 0 out out = Some out2
    /\ out = mkViewOffset (mkViewDimension 1 1 1 1 1 1 1 5)
                          (mkViewStride 0 0 0 0 0 0 0 1)
    /\ out2 = mkViewOffset (mkViewDimension 1 1 1 1 1 1 1 1)
                           (mkViewStride 0 0 0 0 0 0 0 0)
    /\ out2 <> out.
Proof.
  do 2 eexists.
  split; [ reflexivity | split; [ reflexivity | ] ].
  split; [ reflexivity | split; [ reflexivity | discriminate ] ].
Qed.

End TransferFacts.

(** ** Assignment and subviews *)

Section AssignFacts.

Import ViewToDynRankView.

(** What [assign] returns, field by field. *)
Lemma assign_result (DstTraits SrcTraits : ViewTraits)
    (dst : DynRankView) (src : View) :
  is_assignable DstTraits SrcTraits = true ->
  (rank_of SrcTraits <= 7)%nat ->
  exists (dst' : DynRankView) (off : ViewOffset),
    assign DstTraits SrcTraits dst src = Some dst'
    /\ AssignDim_eval (rank_of SrcTraits) (FadStaticDimension SrcTraits)
         (m_offset (m_map dst)) (m_offset (view_map src)) = Some off
    /\ m_dim (m_offset (m_map dst')) = m_dim off
    /\ m_stride (m_offset (m_map dst')) = m_stride (m_offset (view_map src))
    /\ m_handle (m_map dst') = m_handle (view_map src)
    /\ m_rank dst' = Z.of_nat (rank_of SrcTraits)
    /\ m_track dst' = m_track dst
    /\ m_fad_size (m_map dst') =
         (if specialize_eqb (specialize_of DstTraits) ViewSpecializeSacadoFad
          then m_fad_size (view_map src) else m_fad_size (m_map dst))
    /\ m_fad_stride (m_map dst') =
         (if specialize_eqb (specialize_of DstTraits) ViewSpecializeSacadoFad
          then m_fad_stride (view_map src) else m_fad_stride (m_map dst)).
Proof.
  intros Hok HR. unfold assign. rewrite Hok.
  destruct (AssignDim_eval_total (rank_of SrcTraits)
              (FadStaticDimension SrcTraits) (m_offset (m_map dst))
              (m_offset (view_map src)) HR) as [off Hoff].
  rewrite Hoff. eexists; exists off.
  split; [ reflexivity | split; [ reflexivity | ] ].
  unfold assign_fad_size.
  destruct (specialize_eqb (specialize_of DstTraits) ViewSpecializeSacadoFad);
    cbn; repeat split; reflexivity.
Qed.

(** The extents that the rule of [AssignDim] for rank [R] produces. *)
Lemma AssignDim_eval_product (R : nat) (sd : Z) (dst src off : ViewOffset) :
  AssignDim_eval R sd dst src = Some off ->
  sd = 0 \/ N7 (m_dim dst) = extent (m_dim src) R ->
  dim_product (m_dim off) = populated_product (m_dim src) R.
Proof.
  intros Hoff Hsd.
  destruct R as [|[|[|[|[|[|[|[|R]]]]]]]]; [ .. | discriminate Hoff ];
    injection Hoff as <-;
    unfold dim_product, populated_product; cbn;
    unfold AssignFadDim7_eval;
    (destruct (Z.eqb_spec sd 0) as [E | E];
     [ cbn; ring
     | destruct Hsd as [Hsd | Hsd]; [ contradiction | ];
       cbn in Hsd |- *; rewrite Hsd; ring ]).
Qed.

(** C7, as amended: when the static derivative width of the source is 0,
    or slot 7 of the destination already holds the AD extent of the source,
    an assignment from a view of Fad of rank [R] leaves in the destination
    eight extents whose product is the product of the [R + 1] populated
    extents of the source. *)
Theorem assign_preserves_element_count (DstTraits SrcTraits : ViewTraits)
    (dst : DynRankView) (src : View) :
  is_assignable DstTraits SrcTraits = true ->
  (rank_of SrcTraits <= 7)%nat ->
  FadStaticDimension SrcTraits = 0
  \/ N7 (m_dim (m_offset (m_map dst))) =
     extent (m_dim (m_offset (view_map src))) (rank_of SrcTraits) ->
  exists dst' : DynRankView,
    assign DstTraits SrcTraits dst src = Some dst'
    /\ dim_product (m_dim (m_offset (m_map dst'))) =
       populated_product (m_dim (m_offset (view_map src))) (rank_of SrcTraits).
Proof.
  intros Hok HR Hsd.
  destruct (assign_result DstTraits SrcTraits dst src Hok HR)
    as (dst' & off & Hassign & Hoff & Hdim & _).
  exists dst'. split; [ exact Hassign | ].
  rewrite Hdim. eapply AssignDim_eval_product; eassumption.
Qed.

Lemma assign_preserves_element_count_witness :
  exists dst' : DynRankView,
    assign (Examples.ordinary_traits Examples.dfad_traits) Examples.dfad_traits
      Examples.empty_view (Examples.view_4x3 4096) = Some dst'
    /\ dim_product (m_dim (m_offset (m_map dst'))) = 12.
Proof.
  apply (assign_preserves_element_count
           (Examples.ordinary_traits Examples.dfad_traits)
           Examples.dfad_traits Examples.empty_view (Examples.view_4x3 4096));
    [ reflexivity | cbn; lia | left; reflexivity ].
Defined.

(** C7 as stated fails: with the static width 3 of [SFad<double,2>] slot 7
    of the ordinary destination keeps its extent 1, and the 4 x 3 scalars
    of the source become 4 elements. *)
Lemma assign_static_width_loses_elements :
  exists dst' : DynRankView,
    assign (Examples.ordinary_traits Examples.sfad_traits) Examples.sfad_traits
      Examples.empty_view (Examples.view_4x3 4096) = Some dst'
    /\ m_dim (m_offset (m_map dst')) = mkViewDimension 4 1 1 1 1 1 1 1
    /\ dim_product (m_dim (m_offset (m_map dst'))) = 4
    /\ populated_product
         (m_dim (m_offset (view_map (Examples.view_4x3 4096)))) 1 = 12.
Proof. eexists. repeat split. Qed.

(** What [subview] returns for a source of Fad: the result always exists. *)
Lemma subview_total (K : SubviewCore) (SrcTraits : ViewTraits)
    (src_rank : Z) (src : DynRankView) (args : list SliceArg) :
  specialize_of SrcTraits = ViewSpecializeSacadoFad ->
  exists (dst : DynRankView) (off : ViewOffset),
    subview K SrcTraits src_rank src args = Some dst
    /\ m_offset (m_map dst) = off
    /\ m_track dst = m_track src
    /\ m_fad_size (m_map dst) = m_fad_size (m_map src)
    /\ m_fad_stride (m_map dst) = m_fad_stride (m_map src).
Proof.
  intros Hs. unfold subview. rewrite Hs. cbn [specialize_eqb negb].
  match goal with
  | |- context [AssignFadDimStride_eval ?r ?s ?d ?t] =>
      destruct (AssignFadDimStride_eval_total r s d t) as [off Hoff]
  end.
  { unfold unsigned_of_bool.
    repeat match goal with
           | |- context [is_integral_extent ?i args] =>
               destruct (is_integral_extent i args)
           end; cbn; lia. }
  rewrite Hoff. eexists; exists off. repeat split; reflexivity.
Qed.

(** C10: a subview of a view of Fad has the derivative size and the
    derivative stride of its source, and an assignment to a destination of
    Fad copies both fields of the source unchanged. *)
Theorem fad_size_and_stride_carried_over :
  (forall (K : SubviewCore) (SrcTraits : ViewTraits) (src_rank : Z)
          (src : DynRankView) (args : list SliceArg),
     specialize_of SrcTraits = ViewSpecializeSacadoFad ->
     exists dst : DynRankView,
       subview K SrcTraits src_rank src args = Some dst
       /\ m_fad_size (m_map dst) = m_fad_size (m_map src)
       /\ m_fad_stride (m_map dst) = m_fad_stride (m_map src))
  /\ (forall (DstTraits SrcTraits : ViewTraits) (dst : DynRankView)
             (src : View),
        is_assignable DstTraits SrcTraits = true ->
        (rank_of SrcTraits <= 7)%nat ->
        specialize_of DstTraits = ViewSpecializeSacadoFad ->
        exists dst' : DynRankView,
          assign DstTraits SrcTraits dst src = Some dst'
          /\ m_fad_size (m_map dst') = m_fad_size (view_map src)
          /\ m_fad_stride (m_map dst') = m_fad_stride (view_map src)).
Proof.
  split.
  - intros K SrcTraits src_rank src args Hs.
    destruct (subview_total K SrcTraits src_rank src args Hs)
      as (dst & off & H & _ & _ & Hsize & Hstride).
    exists dst. auto.
  - intros DstTraits SrcTraits dst src Hok HR Hs.
    destruct (assign_result DstTraits SrcTraits dst src Hok HR)
      as (dst' & off & H & _ & _ & _ & _ & _ & _ & Hsize & Hstride).
    rewrite Hs in Hsize, Hstride. exists dst'. auto.
Qed.

Lemma fad_size_and_stride_carried_over_witness :
  (exists dst : DynRankView,
     subview Examples.subview_core Examples.dfad_traits 1
       (Examples.dyn_4x3 4096) [Range 1 3] = Some dst
     /\ m_fad_size (m_map dst) = 2
     /\ m_fad_stride (m_map dst) = 1)
  /\ (exists dst' : DynRankView,
        assign Examples.dfad_traits Examples.dfad_traits
          Examples.empty_view (Examples.view_4x3 4096) = Some dst'
        /\ m_fad_size (m_map dst') = 2
        /\ m_fad_stride (m_map dst') = 1).
Proof.
  split.
  - apply (proj1 fad_size_and_stride_carried_over Examples.subview_core
             Examples.dfad_traits 1 (Examples.dyn_4x3 4096) [Range 1 3]).
    reflexivity.
  - apply (proj2 fad_size_and_stride_carried_over Examples.dfad_traits
             Examples.dfad_traits Examples.empty_view
             (Examples.view_4x3 4096));
      [ reflexivity | cbn; lia | reflexivity ].
Defined.

End AssignFacts.

(** ** Dispatch of [deep_copy] *)

Section DeepCopyFacts.

Import DeepCopyFad.

Lemma non_const_destination (t : ValueType) :
  ValueType_eqb t (non_const_value_type t) = negb (is_const t).
Proof.
  unfold ValueType_eqb, non_const_value_type; cbn.
  rewrite String.eqb_refl. destruct (is_const t); reflexivity.
Qed.

Lemma neq_true (a b : Z) : neq a b = true <-> a <> b.
Proof.
  unfold neq. destruct (Z.eqb_spec a b); split; (congruence || easy).
Qed.

(** A call that throws went through every test of the dispatch. *)
Lemma deep_copy_thrown_inv (C : CopyCore) (DstTraits SrcTraits : ViewTraits)
    (dst src : DynRankView) (mem mem' : Mem C) (msg : string) :
  deep_copy C DstTraits SrcTraits dst src mem = Thrown msg mem' ->
  data dst <> data src
  /\ both_rank_0 dst src = false
  /\ bytewise_left_right C DstTraits SrcTraits dst src = false
  /\ bytewise_stride C DstTraits SrcTraits dst src = false
  /\ VerifyExecutionCanAccessMemorySpace C
       (execution_memory_space DstTraits) (memory_space SrcTraits) = false
  /\ VerifyExecutionCanAccessMemorySpace C
       (execution_memory_space SrcTraits) (memory_space DstTraits) = false
  /\ msg = temporary_allocation_message
  /\ mem' = mem.
Proof.
  unfold deep_copy.
  destruct (negb _); [ discriminate | ].
  destruct (neq (data dst) (data src)) eqn:Hne; [ | discriminate ].
  destruct (both_rank_0 dst src); [ discriminate | ].
  destruct (bytewise_left_right C DstTraits SrcTraits dst src);
    [ discriminate | ].
  destruct (bytewise_stride C DstTraits SrcTraits dst src);
    [ discriminate | ].
  destruct (VerifyExecutionCanAccessMemorySpace C
              (execution_memory_space DstTraits) (memory_space SrcTraits));
    [ discriminate | ].
  destruct (VerifyExecutionCanAccessMemorySpace C
              (execution_memory_space SrcTraits) (memory_space DstTraits));
    [ discriminate | ].
  intros H. injection H as <- <-.
  apply neq_true in Hne. repeat split; auto.
Qed.

(** C8: a [deep_copy] between views at distinct addresses, for which none of
    the three byte-copy tests holds and neither execution space reaches the
    memory of the other view, throws and leaves the memory as it was; and a
    [deep_copy] that throws is in that case, with that message. *)
Theorem deep_copy_throws_when_inaccessible
    (C : CopyCore) (DstTraits SrcTraits : ViewTraits)
    (dst src : DynRankView) (mem : Mem C) :
  is_const (value_type DstTraits) = false ->
  (data dst <> data src
   /\ both_rank_0 dst src = false
   /\ bytewise_left_right C DstTraits SrcTraits dst src = false
   /\ bytewise_stride C DstTraits SrcTraits dst src = false
   /\ VerifyExecutionCanAccessMemorySpace C
        (execution_memory_space DstTraits) (memory_space SrcTraits) = false
   /\ VerifyExecutionCanAccessMemorySpace C
        (execution_memory_space SrcTraits) (memory_space DstTraits) = false)
  <->
  (exists (msg : string) (mem' : Mem C),
     deep_copy C DstTraits SrcTraits dst src mem = Thrown msg mem')
  /\ (forall (msg : string) (mem' : Mem C),
        deep_copy C DstTraits SrcTraits dst src mem = Thrown msg mem' ->
        msg = temporary_allocation_message /\ mem' = mem).
Proof.
  intros Hconst. split.
  - intros (Hne & H0 & H1 & H2 & H3 & H4).
    assert (Hthrow : deep_copy C DstTraits SrcTraits dst src mem
                     = Thrown temporary_allocation_message mem).
    { unfold deep_copy.
      rewrite non_const_destination, Hconst. cbn [negb].
      apply neq_true in Hne. rewrite Hne, H0, H1, H2, H3, H4. reflexivity. }
    split.
    + exists temporary_allocation_message, mem. exact Hthrow.
    + intros msg mem' H. rewrite Hthrow in H. injection H as <- <-. auto.
  - intros [(msg & mem' & H) _].
    apply deep_copy_thrown_inv in H. tauto.
Qed.

Lemma deep_copy_throws_when_inaccessible_witness :
  exists (msg : string) (mem' : Mem Examples.copy_core),
    deep_copy Examples.copy_core
      (Examples.in_space 1 Examples.dfad_traits)
      (Examples.in_space 2
         {| value_type := value_type Examples.dfad_traits
          ; array_layout_of := LayoutLeft
          ; specialize_of := ViewSpecializeSacadoFad
          ; memory_space := 2
          ; execution_space := 2
          ; execution_memory_space := 2
          ; rank_of := 1
          ; FadStaticDimension := 0
          ; sizeof_value_type := 24
          ; sizeof_inner_value_type := 8 |})
      (upd_m_map (set_m_handle 4096) (set_m_rank 2 Examples.empty_view))
      (Examples.dyn_4x3 8192) 0
    = Thrown msg mem'.
Proof.
  apply (proj1 (deep_copy_throws_when_inaccessible Examples.copy_core
           (Examples.in_space 1 Examples.dfad_traits)
           (Examples.in_space 2
              {| value_type := value_type Examples.dfad_traits
               ; array_layout_of := LayoutLeft
               ; specialize_of := ViewSpecializeSacadoFad
               ; memory_space := 2
               ; execution_space := 2
               ; execution_memory_space := 2
               ; rank_of := 1
               ; FadStaticDimension := 0
               ; sizeof_value_type := 24
               ; sizeof_inner_value_type := 8 |})
           (upd_m_map (set_m_handle 4096) (set_m_rank 2 Examples.empty_view))
           (Examples.dyn_4x3 8192) 0 eq_refl)).
  repeat split; discriminate.
Defined.

End DeepCopyFacts.

(** ** More on the rank and on the layouts *)

Section MoreLayoutFacts.

Import DynRankDimTraits.

(** Case analysis on the eight tests against the sentinel. *)
Ltac sentinel_cases n0 n1 n2 n3 n4 n5 n6 n7 :=
  destruct (n0 =? unspecified), (n1 =? unspecified), (n2 =? unspecified),
    (n3 =? unspecified), (n4 =? unspecified), (n5 =? unspecified),
    (n6 =? unspecified), (n7 =? unspecified).

(** X1.  The rank is the position of the last specified slot, whatever the
    pattern of specified and unspecified slots, and 0 when no slot is
    specified; it is always an index into the eight slots. *)
Theorem computeRank_is_last_specified (n0 n1 n2 n3 n4 n5 n6 n7 : Z) :
  computeRank n0 n1 n2 n3 n4 n5 n6 n7
  = Z.of_nat (last_specified [n0; n1; n2; n3; n4; n5; n6; n7])
  /\ (last_specified [n0; n1; n2; n3; n4; n5; n6; n7] < 8)%nat.
Proof.
  unfold computeRank, last_specified, specified, neq.
  cbv beta iota delta [imap compose].
  sentinel_cases n0 n1 n2 n3 n4 n5 n6 n7;
    (split; [ reflexivity | vm_compute; lia ]).
Qed.

(** The layout that [createLayout] returns depends on the request through its
    extents only, and for [LayoutStride] through its strides. *)
Lemma createLayout_dimension (layout : Layout) (n0 n1 n2 n3 n4 n5 n6 n7 : Z) :
  dimension layout = [n0; n1; n2; n3; n4; n5; n6; n7] ->
  dimension (createLayout layout) =
  dimension (createLayout_LR (Layout_ctor LayoutRight n0 n1 n2 n3 n4 n5 n6 n7)).
Proof.
  intros Hd. destruct layout as [kind dims strides]. cbn in Hd. subst dims.
  destruct kind; reflexivity.
Qed.

(** The layout of a request with [k >= 1] leading specified extents. *)
Lemma createLayout_contiguous
    (layout : Layout) (n0 n1 n2 n3 n4 n5 n6 n7 : Z) (k : nat) :
  dimension layout = [n0; n1; n2; n3; n4; n5; n6; n7] ->
  (1 <= k <= 8)%nat ->
  leading_specified k [n0; n1; n2; n3; n4; n5; n6; n7] = true ->
  dimension (createLayout layout) =
  take (k - 1) [n0; n1; n2; n3; n4; n5; n6; n7]
  ++ replicate (8 - k) 1
  ++ [[n0; n1; n2; n3; n4; n5; n6; n7] !!! (k - 1)%nat].
Proof.
  intros Hd Hk H. rewrite (createLayout_dimension _ _ _ _ _ _ _ _ _ Hd).
  unfold createLayout_LR, computeRank_layout, computeRank, dim_or_1, neq.
  unfold leading_specified, specified, neq in H. revert H.
  destruct k as [|[|[|[|[|[|[|[|[|k]]]]]]]]]; try lia; cbn;
    sentinel_cases n0 n1 n2 n3 n4 n5 n6 n7; cbn; intros H;
    try discriminate H; reflexivity.
Qed.

(** X2.  [createView] on [k >= 1] leading specified extents builds the view from
    the first [k - 1] extents, extents 1 up to slot 6, and the last
    specified extent, the derivative dimension, in slot 7. *)
Theorem createView_contiguous {ViewType ViewArg : Type}
    (ViewType_ctor : ViewArg -> Z -> Z -> Z -> Z -> Z -> Z -> Z -> Z -> ViewType)
    (kind : array_layout) (dflt : Z) (arg : ViewArg)
    (n0 n1 n2 n3 n4 n5 n6 n7 : Z) (k : nat) :
  kind = LayoutLeft \/ kind = LayoutRight ->
  (1 <= k <= 8)%nat ->
  leading_specified k [n0; n1; n2; n3; n4; n5; n6; n7] = true ->
  let D := take (k - 1) [n0; n1; n2; n3; n4; n5; n6; n7]
           ++ replicate (8 - k) 1
           ++ [[n0; n1; n2; n3; n4; n5; n6; n7] !!! (k - 1)%nat] in
  createView ViewType_ctor kind dflt arg n0 n1 n2 n3 n4 n5 n6 n7
  = ViewType_ctor arg (D !!! 0%nat) (D !!! 1%nat) (D !!! 2%nat) (D !!! 3%nat)
                      (D !!! 4%nat) (D !!! 5%nat) (D !!! 6%nat) (D !!! 7%nat).
Proof.
  intros Hkind Hk H D. unfold createView.
  rewrite (createLayout_contiguous
             (array_layout_ctor kind dflt n0 n1 n2 n3 n4 n5 n6 n7)
             n0 n1 n2 n3 n4 n5 n6 n7 k); [ reflexivity | | exact Hk | exact H ].
  destruct Hkind as [-> | ->]; reflexivity.
Qed.

Lemma createView_contiguous_witness :
  createView (fun (label : string) a b c d e f g h => (label, [a; b; c; d; e; f; g; h]))
    LayoutRight 0 "v"%string 4 6 3 unspecified unspecified unspecified unspecified
    unspecified
  = ("v"%string, [4; 6; 1; 1; 1; 1; 1; 3]).
Proof.
  apply (createView_contiguous
           (fun (label : string) a b c d e f g h =>
              (label, [a; b; c; d; e; f; g; h]))
           LayoutRight 0 "v"%string 4 6 3 unspecified unspecified unspecified
           unspecified unspecified 3);
    [ right; reflexivity | lia | reflexivity ].
Defined.

(** X3.  [createLayout] keeps the number of elements: when some slot of the
    request is specified, the product of the eight extents of the result is
    the product of the specified extents of the request. *)
Theorem createLayout_preserves_extent_product
    (layout : Layout) (n0 n1 n2 n3 n4 n5 n6 n7 : Z) :
  dimension layout = [n0; n1; n2; n3; n4; n5; n6; n7] ->
  existsb specified [n0; n1; n2; n3; n4; n5; n6; n7] = true ->
  extent_product (dimension (createLayout layout))
  = extent_product
      (map (fun n => if specified n then n else 1)
           [n0; n1; n2; n3; n4; n5; n6; n7]).
Proof.
  intros Hd H. rewrite (createLayout_dimension _ _ _ _ _ _ _ _ _ Hd).
  unfold createLayout_LR, computeRank_layout, computeRank, dim_or_1.
  unfold specified, neq in *. revert H. cbn.
  sentinel_cases n0 n1 n2 n3 n4 n5 n6 n7; cbn; intros H;
    try discriminate H; unfold extent_product;
    rewrite !to_unsigned_small by lia; simpl; ring.
Qed.

Lemma createLayout_preserves_extent_product_witness :
  extent_product (dimension (createLayout
    (LayoutStride_ctor 4 18 6 3 3 1 unspecified 0 unspecified 0
                       unspecified 0 unspecified 0 unspecified 0)))
  = extent_product
      (map (fun n => if specified n then n else 1)
           [4; 6; 3; unspecified; unspecified; unspecified; unspecified;
            unspecified]).
Proof.
  apply (createLayout_preserves_extent_product
           (LayoutStride_ctor 4 18 6 3 3 1 unspecified 0 unspecified 0
                              unspecified 0 unspecified 0 unspecified 0)
           4 6 3 unspecified unspecified unspecified unspecified unspecified);
    reflexivity.
Defined.

(** With some slot specified, the eight extents of the result are all
    specified. *)
Lemma createLayout_all_specified
    (layout : Layout) (n0 n1 n2 n3 n4 n5 n6 n7 : Z) :
  dimension layout = [n0; n1; n2; n3; n4; n5; n6; n7] ->
  existsb specified [n0; n1; n2; n3; n4; n5; n6; n7] = true ->
  exists e0 e1 e2 e3 e4 e5 e6 e7 : Z,
    dimension (createLayout layout) = [e0; e1; e2; e3; e4; e5; e6; e7]
    /\ Forall (fun e => e <> unspecified) [e0; e1; e2; e3; e4; e5; e6; e7].
Proof.
  intros Hd Hex. rewrite (createLayout_dimension _ _ _ _ _ _ _ _ _ Hd).
  destruct (computeRank_points_at_specified _ _ _ _ _ _ _ _ Hex)
    as (p & Hp & Hle & Hsp).
  apply specified_neq in Hsp.
  rewrite (createLayout_LR_dimension
             (Layout_ctor LayoutRight n0 n1 n2 n3 n4 n5 n6 n7) p Hp Hle).
  change (dimension (Layout_ctor LayoutRight n0 n1 n2 n3 n4 n5 n6 n7))
    with [n0; n1; n2; n3; n4; n5; n6; n7].
  destruct p as [|[|[|[|[|[|[|[|p]]]]]]]]; [ .. | lia ];
    (do 8 eexists; split; [ reflexivity | ];
     repeat constructor;
     solve [ apply dim_or_1_neq_unspecified | exact Hsp | discriminate ]).
Qed.

(** A request whose eight slots are all specified keeps its extents. *)
Lemma createLayout_full_request
    (layout : Layout) (n0 n1 n2 n3 n4 n5 n6 n7 : Z) :
  dimension layout = [n0; n1; n2; n3; n4; n5; n6; n7] ->
  Forall (fun e => e <> unspecified) [n0; n1; n2; n3; n4; n5; n6; n7] ->
  dimension (createLayout layout) = [n0; n1; n2; n3; n4; n5; n6; n7]
  /\ computeRank_layout layout = 7.
Proof.
  intros Hd Hall.
  rewrite (createLayout_dimension _ _ _ _ _ _ _ _ _ Hd).
  unfold createLayout_LR, computeRank_layout, computeRank, dim_or_1, neq.
  rewrite Hd. cbn.
  repeat match goal with
         | H : Forall _ (_ :: _) |- _ =>
             let Hn := fresh "Hn" in
             apply Forall_cons in H as [Hn H]; apply Z.eqb_neq in Hn;
             rewrite !Hn
         end.
  cbn. split; reflexivity.
Qed.

Lemma createLayout_kind (layout : Layout) :
  layout_kind (createLayout layout) = layout_kind layout.
Proof. destruct layout as [[] dims strides]; reflexivity. Qed.

Lemma createLayout_stride (layout : Layout) :
  stride (createLayout layout) =
  match layout_kind layout with
  | LayoutStride =>
      [stride layout !!! 0%nat; stride layout !!! 1%nat;
       stride layout !!! 2%nat; stride layout !!! 3%nat;
       stride layout !!! 4%nat; stride layout !!! 5%nat;
       stride layout !!! 6%nat; stride layout !!! 7%nat]
  | _ => []
  end.
Proof. destruct layout as [[] dims strides]; reflexivity. Qed.

Lemma Layout_eq (a b : Layout) :
  layout_kind a = layout_kind b -> dimension a = dimension b ->
  stride a = stride b -> a = b.
Proof. destruct a, b; cbn; intros -> -> ->; reflexivity. Qed.

(** X4.  [createLayout] is idempotent on a request with some slot specified: its
    result has all eight slots specified, so it has rank 7, and a second
    call returns it unchanged (kind, extents and strides). *)
Theorem createLayout_idempotent
    (layout : Layout) (n0 n1 n2 n3 n4 n5 n6 n7 : Z) :
  dimension layout = [n0; n1; n2; n3; n4; n5; n6; n7] ->
  existsb specified [n0; n1; n2; n3; n4; n5; n6; n7] = true ->
  computeRank_layout (createLayout layout) = 7
  /\ createLayout (createLayout layout) = createLayout layout.
Proof.
  intros Hd Hex.
  destruct (createLayout_all_specified layout _ _ _ _ _ _ _ _ Hd Hex)
    as (e0 & e1 & e2 & e3 & e4 & e5 & e6 & e7 & He & Hall).
  destruct (createLayout_full_request (createLayout layout)
              _ _ _ _ _ _ _ _ He Hall) as [Hdim Hrank].
  split; [ exact Hrank | ].
  apply Layout_eq.
  - apply createLayout_kind.
  - rewrite Hdim, He. reflexivity.
  - rewrite (createLayout_stride (createLayout layout)).
    rewrite createLayout_kind, createLayout_stride.
    destruct (layout_kind layout); reflexivity.
Qed.

Lemma createLayout_idempotent_witness :
  createLayout (createLayout
    (Layout_ctor LayoutLeft 4 6 3 unspecified unspecified unspecified
                 unspecified unspecified))
  = createLayout
      (Layout_ctor LayoutLeft 4 6 3 unspecified unspecified unspecified
                   unspecified unspecified).
Proof.
  apply (createLayout_idempotent
           (Layout_ctor LayoutLeft 4 6 3 unspecified unspecified unspecified
                        unspecified unspecified)
           4 6 3 unspecified unspecified unspecified unspecified unspecified);
    reflexivity.
Defined.

(** X5.  The layout constructor and the assignment rule agree: for a request with
    [k >= 1] leading specified extents, [createLayout] returns the extents
    that the rule of [AssignDim] for rank [k - 1] and dynamic width leaves in
    a descriptor when its source holds the extents of the request in slots
    [0 .. k-1]. *)
Theorem createLayout_agrees_with_AssignDim
    (layout : Layout) (n0 n1 n2 n3 n4 n5 n6 n7 : Z) (k : nat)
    (dst src : ViewOffset) :
  dimension layout = [n0; n1; n2; n3; n4; n5; n6; n7] ->
  (1 <= k <= 8)%nat ->
  leading_specified k [n0; n1; n2; n3; n4; n5; n6; n7] = true ->
  (forall i : nat, (i < k)%nat ->
     extent (m_dim src) i = [n0; n1; n2; n3; n4; n5; n6; n7] !!! i) ->
  exists out : ViewOffset,
    AssignDim_eval (k - 1) 0 dst src = Some out
    /\ extents_of (m_dim out) = dimension (createLayout layout).
Proof.
  intros Hd Hk H Hsrc.
  rewrite (createLayout_contiguous layout _ _ _ _ _ _ _ _ k Hd Hk H).
  assert (Hs : forall i : nat, (i < k)%nat ->
            extent (m_dim src) i = [n0; n1; n2; n3; n4; n5; n6; n7] !!! i)
    by exact Hsrc.
  destruct k as [|[|[|[|[|[|[|[|[|k]]]]]]]]]; try lia;
    (eexists; split; [ reflexivity | ];
     unfold extents_of; cbn;
     try (rewrite (Hs 0%nat ltac:(lia) : N0 (m_dim src) = n0));
     try (rewrite (Hs 1%nat ltac:(lia) : N1 (m_dim src) = n1));
     try (rewrite (Hs 2%nat ltac:(lia) : N2 (m_dim src) = n2));
     try (rewrite (Hs 3%nat ltac:(lia) : N3 (m_dim src) = n3));
     try (rewrite (Hs 4%nat ltac:(lia) : N4 (m_dim src) = n4));
     try (rewrite (Hs 5%nat ltac:(lia) : N5 (m_dim src) = n5));
     try (rewrite (Hs 6%nat ltac:(lia) : N6 (m_dim src) = n6));
     try (rewrite (Hs 7%nat ltac:(lia) : N7 (m_dim src) = n7));
     reflexivity).
Qed.

Lemma createLayout_agrees_with_AssignDim_witness :
  exists out : ViewOffset,
    AssignDim_eval 1 0 (m_offset (m_map Examples.empty_view))
      (m_offset (Examples.map_4x3 0)) = Some out
    /\ extents_of (m_dim out)
       = dimension (createLayout
           (Layout_ctor LayoutRight 4 3 unspecified unspecified unspecified
                        unspecified unspecified unspecified)).
Proof.
  apply (createLayout_agrees_with_AssignDim
           (Layout_ctor LayoutRight 4 3 unspecified unspecified unspecified
                        unspecified unspecified unspecified)
           4 3 unspecified unspecified unspecified unspecified unspecified
           unspecified 2);
    [ reflexivity | lia | reflexivity | ].
  intros [|[|i]] Hi; [ reflexivity | reflexivity | lia ].
Defined.

End MoreLayoutFacts.

(** ** More on the transfer rules *)

Section MoreTransferFacts.

(** X6.  The two families compute the same extents, and the rules of [AssignDim]
    leave the strides of the destination alone. *)
Theorem AssignDim_agrees_with_AssignFadDimStride
    (R : nat) (StaticDim : Z) (dst src : ViewOffset) :
  (R <= 7)%nat ->
  exists out out' : ViewOffset,
    AssignFadDimStride_eval R StaticDim dst src = Some out
    /\ AssignDim_eval R StaticDim dst src = Some out'
    /\ m_dim out' = m_dim out
    /\ m_stride out' = m_stride dst.
Proof.
  intros HR. rank_cases R;
    (do 2 eexists; split; [ reflexivity | split; [ reflexivity | ] ];
     cbn; unfold AssignFadDim7_eval, AssignDim7_eval;
     destruct (StaticDim =? 0); split; reflexivity).
Qed.

Lemma AssignDim_agrees_with_AssignFadDimStride_witness :
  exists out out' : ViewOffset,
    AssignFadDimStride_eval 1 0 (m_offset (m_map Examples.empty_view))
      (m_offset (Examples.map_4x3 0)) = Some out
    /\ AssignDim_eval 1 0 (m_offset (m_map Examples.empty_view))
         (m_offset (Examples.map_4x3 0)) = Some out'
    /\ m_dim out' = m_dim out
    /\ m_stride out' = m_stride (m_offset (m_map Examples.empty_view)).
Proof.
  apply (AssignDim_agrees_with_AssignFadDimStride 1 0
           (m_offset (m_map Examples.empty_view))
           (m_offset (Examples.map_4x3 0))).
  lia.
Defined.

(** X7.  Called with a destination that is an object separate from its
    source, as [subview] calls it, the rule of rank [R] reads slots
    [0 .. R] of the source only, and of the destination only extent slot 7,
    and that only for a nonzero static width: on two sources that agree up
    to slot [R], and two destinations that agree on extent slot 7 (or any
    two when the width is dynamic), it returns the same descriptor.  Called
    with the source itself as destination it behaves otherwise: for
    [R <= 6] slot 7 receives the values of the slot [R] it has just
    collapsed, stride 0 and (for a dynamic width) extent 1; for [R = 7] the
    object is unchanged. *)
Theorem AssignFadDimStride_eval_reads
    (R : nat) (StaticDim : Z) (dst dst' src src' x : ViewOffset) :
  (R <= 7)%nat ->
  agree_upto R src src' ->
  StaticDim = 0 \/ N7 (m_dim dst) = N7 (m_dim dst') ->
  AssignFadDimStride_eval R StaticDim dst src
  = AssignFadDimStride_eval R StaticDim dst' src'
  /\ exists y : ViewOffset,
       AssignFadDimStride_eval_aliased R StaticDim x = Some y
       /\ (forall i : nat, (i < R)%nat ->
             extent (m_dim y) i = extent (m_dim x) i
             /\ stride_slot (m_stride y) i = stride_slot (m_stride x) i)
       /\ (forall i : nat, (R <= i <= 6)%nat ->
             extent (m_dim y) i = 1 /\ stride_slot (m_stride y) i = 0)
       /\ (R = 7%nat -> y = x)
       /\ ((R < 7)%nat ->
             stride_slot (m_stride y) 7 = 0
             /\ extent (m_dim y) 7 =
                  (if StaticDim =? 0 then 1 else extent (m_dim x) 7)).
Proof.
  intros HR Hsrc Hdst. split.
  - assert (H0 := Hsrc 0%nat). assert (H1 := Hsrc 1%nat).
    assert (H2 := Hsrc 2%nat). assert (H3 := Hsrc 3%nat).
    assert (H4 := Hsrc 4%nat). assert (H5 := Hsrc 5%nat).
    assert (H6 := Hsrc 6%nat). assert (H7 := Hsrc 7%nat). clear Hsrc.
    destruct dst as [[d0 d1 d2 d3 d4 d5 d6 d7] [t0 t1 t2 t3 t4 t5 t6 t7]].
    destruct dst' as [[e0 e1 e2 e3 e4 e5 e6 e7] [u0 u1 u2 u3 u4 u5 u6 u7]].
    destruct src as [[n0 n1 n2 n3 n4 n5 n6 n7] [s0 s1 s2 s3 s4 s5 s6 s7]].
    destruct src' as [[m0 m1 m2 m3 m4 m5 m6 m7] [r0 r1 r2 r3 r4 r5 r6 r7]].
    cbn in *.
    rank_cases R;
      repeat match goal with
             | H : (?i <= ?r)%nat -> _ |- _ =>
                 first [ specialize (H ltac:(lia)); destruct H | clear H ]
             end;
      subst; cbn; unfold AssignDim7_eval;
      (destruct (Z.eqb_spec StaticDim 0);
       [ reflexivity
       | destruct Hdst as [Hdst | Hdst]; [ contradiction | ];
         rewrite Hdst; reflexivity ]).
  - clear Hsrc Hdst.
    destruct x as [[n0 n1 n2 n3 n4 n5 n6 n7] [s0 s1 s2 s3 s4 s5 s6 s7]].
    rank_cases R;
      (eexists; split; [ reflexivity | ];
       cbn; unfold AssignDim7_eval; destruct (StaticDim =? 0); cbn;
       (split; [ intros i Hi; slot_cases i; split; reflexivity | ]);
       (split; [ intros i Hi; slot_cases i; split; reflexivity | ]);
       (split; [ intros HR7; try discriminate HR7; reflexivity | ]);
       intros HR7; try lia; split; reflexivity).
Qed.

Lemma AssignFadDimStride_eval_reads_witness :
  AssignFadDimStride_eval 1 0
    (mkViewOffset (mkViewDimension 0 0 0 0 0 0 0 0)
                  (mkViewStride 0 0 0 0 0 0 0 0))
    (mkViewOffset (mkViewDimension 4 3 1 1 1 1 1 1)
                  (mkViewStride 3 1 0 0 0 0 0 0))
  = AssignFadDimStride_eval 1 0
      (mkViewOffset (mkViewDimension 9 9 9 9 9 9 9 9)
                    (mkViewStride 9 9 9 9 9 9 9 9))
      (mkViewOffset (mkViewDimension 4 3 7 7 7 7 7 7)
                    (mkViewStride 3 1 5 5 5 5 5 5))
  /\ AssignFadDimStride_eval 1 0
       (mkViewOffset (mkViewDimension 0 0 0 0 0 0 0 0)
                     (mkViewStride 0 0 0 0 0 0 0 0))
       (mkViewOffset (mkViewDimension 4 3 1 1 1 1 1 1)
                     (mkViewStride 3 1 0 0 0 0 0 0))
     = Some (mkViewOffset (mkViewDimension 4 1 1 1 1 1 1 3)
                          (mkViewStride 3 0 0 0 0 0 0 1))
  /\ AssignFadDimStride_eval_aliased 1 0
       (mkViewOffset (mkViewDimension 4 3 1 1 1 1 1 1)
                     (mkViewStride 3 1 0 0 0 0 0 0))
     = Some (mkViewOffset (mkViewDimension 4 1 1 1 1 1 1 1)
                          (mkViewStride 3 0 0 0 0 0 0 0)).
Proof.
  split; [ | split; reflexivity ].
  apply (AssignFadDimStride_eval_reads 1 0
           (mkViewOffset (mkViewDimension 0 0 0 0 0 0 0 0)
                         (mkViewStride 0 0 0 0 0 0 0 0))
           (mkViewOffset (mkViewDimension 9 9 9 9 9 9 9 9)
                         (mkViewStride 9 9 9 9 9 9 9 9))
           (mkViewOffset (mkViewDimension 4 3 1 1 1 1 1 1)
                         (mkViewStride 3 1 0 0 0 0 0 0))
           (mkViewOffset (mkViewDimension 4 3 7 7 7 7 7 7)
                         (mkViewStride 3 1 5 5 5 5 5 5))
           (mkViewOffset (mkViewDimension 4 3 1 1 1 1 1 1)
                         (mkViewStride 3 1 0 0 0 0 0 0)));
    [ lia | | left; reflexivity ].
  intros [|[|i]] Hi; [ split; reflexivity | split; reflexivity | lia ].
Defined.

End MoreTransferFacts.

(** ** More on assignment and subviews *)

Section MoreAssignFacts.

Import ViewToDynRankView.

(** X8.  [assign] copies the eight strides of the source slot for slot, shares
    its handle and takes its rank; it leaves the tracker of the destination
    alone, and for an ordinary destination the derivative size and stride
    too. *)
Theorem assign_frame (DstTraits SrcTraits : ViewTraits)
    (dst : DynRankView) (src : View) :
  is_assignable DstTraits SrcTraits = true ->
  (rank_of SrcTraits <= 7)%nat ->
  exists dst' : DynRankView,
    assign DstTraits SrcTraits dst src = Some dst'
    /\ strides_of (m_stride (m_offset (m_map dst')))
       = strides_of (m_stride (m_offset (view_map src)))
    /\ m_handle (m_map dst') = m_handle (view_map src)
    /\ m_rank dst' = Z.of_nat (rank_of SrcTraits)
    /\ m_track dst' = m_track dst
    /\ (specialize_of DstTraits = ViewSpecializeVoid ->
          m_fad_size (m_map dst') = m_fad_size (m_map dst)
          /\ m_fad_stride (m_map dst') = m_fad_stride (m_map dst)).
Proof.
  intros Hok HR.
  destruct (assign_result DstTraits SrcTraits dst src Hok HR)
    as (dst' & off & H & _ & _ & Hs & Hh & Hr & Ht & Hsize & Hstride).
  exists dst'. rewrite Hs.
  split; [ exact H | split; [ reflexivity | ] ].
  split; [ exact Hh | split; [ exact Hr | split; [ exact Ht | ] ] ].
  intros Hv. rewrite Hsize, Hstride, Hv. split; reflexivity.
Qed.

Lemma assign_frame_witness :
  exists dst' : DynRankView,
    assign (Examples.ordinary_traits Examples.dfad_traits) Examples.dfad_traits
      Examples.empty_view (Examples.view_4x3 4096) = Some dst'
    /\ strides_of (m_stride (m_offset (m_map dst'))) = [3; 1; 0; 0; 0; 0; 0; 0]
    /\ m_handle (m_map dst') = 4096.
Proof.
  destruct (assign_frame (Examples.ordinary_traits Examples.dfad_traits)
              Examples.dfad_traits Examples.empty_view
              (Examples.view_4x3 4096))
    as (dst' & H & Hs & Hh & _); [ reflexivity | cbn; lia | ].
  exists dst'. split; [ exact H | split; [ exact Hs | exact Hh ] ].
Defined.

(** X9.  An assignment that compiles is between views of one memory space, from
    a source of Fad to a destination of Fad or an ordinary one, of the same
    element type, and it never drops a const qualification. *)
Theorem assign_accepted_inv (DstTraits SrcTraits : ViewTraits)
    (dst dst' : DynRankView) (src : View) :
  assign DstTraits SrcTraits dst src = Some dst' ->
  memory_space DstTraits = memory_space SrcTraits
  /\ specialize_of SrcTraits = ViewSpecializeSacadoFad
  /\ (specialize_of DstTraits = ViewSpecializeSacadoFad
      \/ specialize_of DstTraits = ViewSpecializeVoid)
  /\ type_name (value_type DstTraits) = type_name (value_type SrcTraits)
  /\ (is_const (value_type SrcTraits) = true ->
      is_const (value_type DstTraits) = true)
  /\ (rank_of SrcTraits <= 7)%nat.
Proof.
  unfold assign.
  destruct (is_assignable DstTraits SrcTraits) eqn:Hok; [ | discriminate ].
  destruct (AssignDim_eval _ _ _ _) eqn:Hoff; [ | discriminate ].
  intros _. unfold is_assignable, ValueType_eqb in Hok. cbn in Hok.
  repeat (apply andb_prop in Hok as [Hok ?]).
  apply Nat.eqb_eq in Hok.
  repeat split.
  - exact Hok.
  - destruct (specialize_of SrcTraits); (reflexivity || discriminate).
  - destruct (specialize_of DstTraits); auto; discriminate.
  - apply orb_prop in H as [H | H]; apply andb_prop in H as [H _];
      apply String.eqb_eq in H; exact H.
  - intros Hc. rewrite Hc in H.
    destruct (is_const (value_type DstTraits)); [ reflexivity | ].
    rewrite !andb_false_r in H. discriminate.
  - destruct (rank_of SrcTraits) as [|[|[|[|[|[|[|[|R]]]]]]]];
      (lia || discriminate).
Qed.

Lemma assign_accepted_inv_witness :
  memory_space (Examples.ordinary_traits Examples.dfad_traits)
  = memory_space Examples.dfad_traits.
Proof.
  apply (assign_accepted_inv (Examples.ordinary_traits Examples.dfad_traits)
           Examples.dfad_traits Examples.empty_view
           (mkDynRankView 0
              (mkViewMap 4096
                 (mkViewOffset (mkViewDimension 4 1 1 1 1 1 1 3)
                               (mkViewStride 3 1 0 0 0 0 0 0)) 0 0) 1)
           (Examples.view_4x3 4096)).
  reflexivity.
Defined.

End MoreAssignFacts.

Section MoreSubviewFacts.

Lemma range_count_S (n : nat) (args : list SliceArg) :
  range_count (S n) args
  = (range_count n args
     + (if is_integral_extent n args then 1 else 0))%nat.
Proof.
  unfold range_count, is_integral_extent.
  destruct (args !! n) as [a|] eqn:E.
  - rewrite (take_S_r _ _ _ E), List.filter_app, length_app.
    destruct a; reflexivity.
  - apply lookup_ge_None in E.
    rewrite !take_ge by lia. lia.
Qed.

(** The static rank of a subview is the number of ranges among its (at most
    seven) slicing arguments. *)
Lemma subview_static_rank (args : list SliceArg) :
  Z.to_nat (unsigned_of_bool (is_integral_extent 0 args)
            + unsigned_of_bool (is_integral_extent 1 args)
            + unsigned_of_bool (is_integral_extent 2 args)
            + unsigned_of_bool (is_integral_extent 3 args)
            + unsigned_of_bool (is_integral_extent 4 args)
            + unsigned_of_bool (is_integral_extent 5 args)
            + unsigned_of_bool (is_integral_extent 6 args))
  = range_count 7 args.
Proof.
  rewrite !range_count_S. unfold range_count at 1. rewrite take_0. cbn [List.filter length].
  unfold unsigned_of_bool.
  destruct (is_integral_extent 0 args), (is_integral_extent 1 args),
    (is_integral_extent 2 args), (is_integral_extent 3 args),
    (is_integral_extent 4 args), (is_integral_extent 5 args),
    (is_integral_extent 6 args); reflexivity.
Qed.

(** X10.  The dynamic rank of a subview is the number of ranges among the first
    [src_rank] slicing arguments, and among the first seven when the source
    rank is above 7; it is 0 for a source of rank 0. *)
Theorem subview_rank (K : SubviewCore) (SrcTraits : ViewTraits)
    (src_rank : Z) (src : DynRankView) (args : list SliceArg) :
  specialize_of SrcTraits = ViewSpecializeSacadoFad ->
  exists dst : DynRankView,
    subview K SrcTraits src_rank src args = Some dst
    /\ m_rank dst
       = Z.of_nat (range_count (Z.to_nat (Z.min 7 src_rank)) args).
Proof.
  intros Hs. unfold subview. rewrite Hs. cbn [specialize_eqb negb].
  rewrite subview_static_rank.
  match goal with
  | |- context [AssignFadDimStride_eval ?r ?s ?d ?t] =>
      destruct (AssignFadDimStride_eval_total r s d t) as [off Hoff]
  end.
  { unfold range_count.
    etransitivity; [ apply List.filter_length_le | ].
    rewrite length_take. lia. }
  rewrite Hoff. eexists. split; [ reflexivity | ].
  cbn [m_rank set_m_rank upd_m_map].
  assert (Hcases : src_rank <= 0 \/ src_rank = 1 \/ src_rank = 2
                   \/ src_rank = 3 \/ src_rank = 4 \/ src_rank = 5
                   \/ src_rank = 6 \/ 7 <= src_rank) by lia.
  destruct Hcases as [H|[H|[H|[H|[H|[H|[H|H]]]]]]];
    [ replace (Z.to_nat (Z.min 7 src_rank)) with 0%nat by lia
    | replace (Z.to_nat (Z.min 7 src_rank)) with 1%nat by lia
    | replace (Z.to_nat (Z.min 7 src_rank)) with 2%nat by lia
    | replace (Z.to_nat (Z.min 7 src_rank)) with 3%nat by lia
    | replace (Z.to_nat (Z.min 7 src_rank)) with 4%nat by lia
    | replace (Z.to_nat (Z.min 7 src_rank)) with 5%nat by lia
    | replace (Z.to_nat (Z.min 7 src_rank)) with 6%nat by lia
    | replace (Z.to_nat (Z.min 7 src_rank)) with 7%nat by lia ];
    rewrite ?range_count_S; unfold range_count; rewrite take_0;
    cbn [List.filter length];
    destruct (Z.ltb_spec 0 src_rank), (Z.ltb_spec 1 src_rank),
      (Z.ltb_spec 2 src_rank), (Z.ltb_spec 3 src_rank),
      (Z.ltb_spec 4 src_rank), (Z.ltb_spec 5 src_rank),
      (Z.ltb_spec 6 src_rank); try lia;
    unfold unsigned_of_bool;
    destruct (is_integral_extent 0 args), (is_integral_extent 1 args),
      (is_integral_extent 2 args), (is_integral_extent 3 args),
      (is_integral_extent 4 args), (is_integral_extent 5 args),
      (is_integral_extent 6 args); reflexivity.
Qed.

Lemma subview_rank_witness :
  exists dst : DynRankView,
    subview Examples.subview_core Examples.dfad_traits 2
      (Examples.dyn_4x3 4096) [Range 1 3; Index 0; ALL] = Some dst
    /\ m_rank dst = 1.
Proof.
  apply (subview_rank Examples.subview_core Examples.dfad_traits 2
           (Examples.dyn_4x3 4096) [Range 1 3; Index 0; ALL]).
  reflexivity.
Defined.

(** X11.  The descriptor of a subview with [r] ranges among its arguments: the
    extents and strides of slots [0 .. r-1] are those of the sliced offset,
    slots [r .. 6] are collapsed to extent 1 and stride 0, stride slot 7 is
    the stride of slot [r] of the sliced offset, and the subview shares the
    tracker of its source. *)
Theorem subview_descriptor (K : SubviewCore) (SrcTraits : ViewTraits)
    (src_rank : Z) (src : DynRankView) (args : list SliceArg) :
  specialize_of SrcTraits = ViewSpecializeSacadoFad ->
  let r := range_count 7 args in
  let tempdst :=
    ViewOffset_ctor K (m_offset (m_map src))
      (generator K (m_dim (m_offset (m_map src))) args) in
  exists dst : DynRankView,
    subview K SrcTraits src_rank src args = Some dst
    /\ (r <= 7)%nat
    /\ (forall i : nat, (i < r)%nat ->
          extent (m_dim (m_offset (m_map dst))) i = extent (m_dim tempdst) i
          /\ stride_slot (m_stride (m_offset (m_map dst))) i
             = stride_slot (m_stride tempdst) i)
    /\ (forall i : nat, (r <= i <= 6)%nat ->
          extent (m_dim (m_offset (m_map dst))) i = 1
          /\ stride_slot (m_stride (m_offset (m_map dst))) i = 0)
    /\ stride_slot (m_stride (m_offset (m_map dst))) 7
       = stride_slot (m_stride tempdst) r
    /\ m_track dst = m_track src.
Proof.
  intros Hs r tempdst.
  assert (Hr : (r <= 7)%nat).
  { subst r. unfold range_count.
    etransitivity; [ apply List.filter_length_le | ].
    rewrite length_take. lia. }
  unfold subview. rewrite Hs. cbn [specialize_eqb negb].
  rewrite subview_static_rank. fold r. fold tempdst.
  generalize dependent r. intros r Hr.
  rank_cases r;
    (eexists; split; [ reflexivity | ]; split; [ lia | ];
     cbn; unfold AssignDim7_eval;
     destruct (FadStaticDimension SrcTraits =? 0);
     (split; [ intros i Hi; slot_cases i; split; reflexivity | ]);
     (split; [ intros i Hi; slot_cases i; split; reflexivity | ]);
     split; reflexivity).
Qed.

Lemma subview_descriptor_witness :
  exists dst : DynRankView,
    subview Examples.subview_core Examples.dfad_traits 1
      (Examples.dyn_4x3 4096) [Range 1 3] = Some dst
    /\ m_track dst = m_track (Examples.dyn_4x3 4096).
Proof.
  destruct (subview_descriptor Examples.subview_core Examples.dfad_traits 1
              (Examples.dyn_4x3 4096) [Range 1 3])
    as (dst & H & _ & _ & _ & _ & Ht); [ reflexivity | ].
  exists dst. split; [ exact H | exact Ht ].
Defined.

End MoreSubviewFacts.

(** ** More on the dispatch of [deep_copy] *)

Section MoreDeepCopyFacts.

Import DeepCopyFad.

Lemma array_layout_eqb_eq (a b : array_layout) :
  array_layout_eqb a b = true <-> a = b.
Proof. destruct a, b; cbn; split; (reflexivity || discriminate). Qed.

(** X12.  Between views of different layouts that are not both of rank 0 nor both
    of rank 1, [deep_copy] never copies bytes: it remaps in the execution
    space of the destination when that reaches the source, else in that of
    the source when that reaches the destination, and throws otherwise. *)
Theorem deep_copy_different_layouts
    (C : CopyCore) (DstTraits SrcTraits : ViewTraits)
    (dst src : DynRankView) (mem : Mem C) :
  is_const (value_type DstTraits) = false ->
  data dst <> data src ->
  array_layout_of DstTraits <> array_layout_of SrcTraits ->
  ~ (rank dst = 0 /\ rank src = 0) ->
  ~ (rank dst = 1 /\ rank src = 1) ->
  deep_copy C DstTraits SrcTraits dst src mem =
  if VerifyExecutionCanAccessMemorySpace C
       (execution_memory_space DstTraits) (memory_space SrcTraits)
  then Returned (DynRankViewRemap C DstTraits SrcTraits
                   (execution_space DstTraits) dst src mem)
  else if VerifyExecutionCanAccessMemorySpace C
            (execution_memory_space SrcTraits) (memory_space DstTraits)
  then Returned (DynRankViewRemap C DstTraits SrcTraits
                   (execution_space SrcTraits) dst src mem)
  else Thrown temporary_allocation_message mem.
Proof.
  intros Hconst Hne Hlay H0 H1. unfold deep_copy.
  rewrite non_const_destination, Hconst. cbn [negb].
  apply neq_true in Hne. rewrite Hne.
  assert (Hl : array_layout_eqb (array_layout_of DstTraits)
                 (array_layout_of SrcTraits) = false).
  { destruct (array_layout_eqb _ _) eqn:E; [ | reflexivity ].
    apply array_layout_eqb_eq in E. contradiction. }
  assert (Hr1 : (rank dst =? 1) && (rank src =? 1) = false).
  { destruct (Z.eqb_spec (rank dst) 1), (Z.eqb_spec (rank src) 1);
      try reflexivity. tauto. }
  assert (Hr0 : both_rank_0 dst src = false).
  { unfold both_rank_0.
    destruct (Z.eqb_spec (rank src) 0), (Z.eqb_spec (rank dst) 0);
      try reflexivity. tauto. }
  rewrite Hr0. unfold bytewise_left_right, bytewise_stride.
  rewrite Hl, Hr1. cbn [andb orb]. rewrite !andb_false_r. cbn [andb].
  reflexivity.
Qed.

Lemma deep_copy_different_layouts_witness :
  deep_copy Examples.copy_core
    (Examples.in_space 1 Examples.dfad_traits)
    (Examples.in_space 1
       {| value_type := value_type Examples.dfad_traits
        ; array_layout_of := LayoutStride
        ; specialize_of := ViewSpecializeSacadoFad
        ; memory_space := 1
        ; execution_space := 1
        ; execution_memory_space := 1
        ; rank_of := 1
        ; FadStaticDimension := 0
        ; sizeof_value_type := 24
        ; sizeof_inner_value_type := 8 |})
    (upd_m_map (set_m_handle 4096) (set_m_rank 2 Examples.empty_view))
    (Examples.dyn_4x3 8192) 0
  = Returned 1.
Proof.
  rewrite deep_copy_different_layouts;
    [ reflexivity | reflexivity | discriminate | discriminate
    | cbn; lia | cbn; lia ].
Defined.

(** X13.  The third test holds beside a failed second test only between two views
    of [LayoutStride]: two views of rank 1 that pass it pass the second
    test before. *)
Theorem bytewise_stride_only_for_LayoutStride
    (C : CopyCore) (DstTraits SrcTraits : ViewTraits) (dst src : DynRankView) :
  bytewise_left_right C DstTraits SrcTraits dst src = false ->
  bytewise_stride C DstTraits SrcTraits dst src = true ->
  array_layout_of DstTraits = LayoutStride
  /\ array_layout_of SrcTraits = LayoutStride
  /\ ~ (rank dst = 1 /\ rank src = 1).
Proof.
  unfold bytewise_left_right, bytewise_stride.
  destruct (ValueType_eqb _ _); [ | discriminate ].
  destruct (span C DstTraits dst =? span C SrcTraits src);
    [ | rewrite !andb_false_r; discriminate ].
  destruct (same_dimensions dst src);
    [ | rewrite !andb_false_r; discriminate ].
  destruct ((rank dst =? 1) && (rank src =? 1)) eqn:Hr.
  - rewrite !orb_true_r. discriminate.
  - rewrite !orb_false_r. cbn [andb]. rewrite !andb_true_r.
    intros _ H. apply andb_prop in H as [H _].
    apply andb_prop in H as [Heq Hs].
    apply array_layout_eqb_eq in Heq, Hs.
    split; [ exact Hs | split; [ congruence | ] ].
    intros [Hd Hsr]. rewrite Hd, Hsr in Hr. discriminate.
Qed.

Lemma bytewise_stride_only_for_LayoutStride_witness :
  let T :=
    {| value_type := value_type Examples.dfad_traits
     ; array_layout_of := LayoutStride
     ; specialize_of := ViewSpecializeSacadoFad
     ; memory_space := 0
     ; execution_space := 0
     ; execution_memory_space := 0
     ; rank_of := 1
     ; FadStaticDimension := 0
     ; sizeof_value_type := 24
     ; sizeof_inner_value_type := 8 |} in
  array_layout_of T = LayoutStride.
Proof.
  intros T.
  apply (bytewise_stride_only_for_LayoutStride Examples.copy_core T T
           (set_m_rank 2 (Examples.dyn_4x3 4096))
           (set_m_rank 2 (Examples.dyn_4x3 8192)));
    reflexivity.
Defined.

(** X14.  A [deep_copy] of a view onto its own data returns at once with the
    memory untouched, and a call is rejected exactly when the element type
    of the destination is const. *)
Theorem deep_copy_same_data
    (C : CopyCore) (DstTraits SrcTraits : ViewTraits)
    (dst src : DynRankView) (mem : Mem C) :
  ((exists msg : string,
      deep_copy C DstTraits SrcTraits dst src mem = Rejected msg)
   <-> is_const (value_type DstTraits) = true)
  /\ (is_const (value_type DstTraits) = false ->
      data dst = data src ->
      deep_copy C DstTraits SrcTraits dst src mem = Returned mem).
Proof.
  unfold deep_copy. rewrite non_const_destination, negb_involutive.
  destruct (is_const (value_type DstTraits)).
  - split; [ split; [ reflexivity | eexists; reflexivity ] | discriminate ].
  - split.
    + split; [ | discriminate ]. intros [msg H]. exfalso. revert H.
      repeat match goal with
             | |- context [if ?b then _ else _] => destruct b
             end; discriminate.
    + intros _ Heq. unfold neq. rewrite Heq, Z.eqb_refl. reflexivity.
Qed.

Lemma deep_copy_same_data_witness :
  deep_copy Examples.copy_core Examples.dfad_traits Examples.dfad_traits
    (Examples.dyn_4x3 4096) (Examples.dyn_4x3 4096) 0
  = Returned 0.
Proof.
  apply (proj2 (deep_copy_same_data Examples.copy_core Examples.dfad_traits
                  Examples.dfad_traits (Examples.dyn_4x3 4096)
                  (Examples.dyn_4x3 4096) 0));
    reflexivity.
Defined.

End MoreDeepCopyFacts.
